(** * ModelViewer3D: scene lifecycle and pin projection

    A shallow embedding of the viewer component
    (src/unnamed/part_005, [ModelViewer3D] and [buildFallbackModel]) and of
    the pin record it reads (src/unnamed/part_000, [ApiModel3DPin]).

    The component is a React function component: its mutable cells are refs
    and state hooks, its behaviour is a set of callbacks (the scene effect and
    its cleanup, the loader callbacks, the animation frame callback, the
    resize callback, the camera buttons).  Each callback is embedded as a
    function on an explicit [World]; the objects one run of the scene effect
    creates (scene, camera, controls, renderer, observer) live in a store of
    sessions, so that the refs and the closures of an older run can alias
    them the way the JavaScript objects do. *)

From Stdlib Require Import List String ZArith QArith Qround Lqa Lia Bool Floats.
Import ListNotations.

Set Implicit Arguments.
Set Warnings "-register-all".

(** ** JavaScript numbers

    The arithmetic the component uses, as an interface with two instances:
    binary64 floating point (what the code runs on) and exact rationals (the
    arithmetic in which the formulas of the specification are written). *)

Class Number (num : Type) : Type := {
  of_Z : Z -> num;
  nadd : num -> num -> num;
  nsub : num -> num -> num;
  nmul : num -> num -> num;
  ndiv : num -> num -> num;
  nopp : num -> num;
  (** [a < b] *)
  nltb : num -> num -> bool;
  (** [a === b] *)
  neqb : num -> num -> bool;
  (** [Math.max(a, b)] *)
  nmax : num -> num -> num
}.

Declare Scope js_scope.
Delimit Scope js_scope with js.
Infix "+" := nadd : js_scope.
Infix "-" := nsub : js_scope.
Infix "*" := nmul : js_scope.
Infix "/" := ndiv : js_scope.
Notation "- a" := (nopp a) : js_scope.
Infix "<?" := nltb : js_scope.
Infix "=?" := neqb : js_scope.
Notation "$ z" := (of_Z z%Z) (at level 1, format "$ z") : js_scope.

(** The decimal literal [m * 10^-k], e.g. [decimal 5 1] for [0.5] and
    [decimal 1 2] for [0.01].  On floats the quotient of two exactly
    represented integers is correctly rounded, so this is the double the
    literal denotes. *)
Definition decimal {num} `{Number num} (m : Z) (k : nat) : num :=
  ($m / $(10 ^ Z.of_nat k))%js.

Definition float_of_Z (z : Z) : float :=
  match z with
  | Z0 => PrimFloat.zero
  | Zpos _ => PrimFloat.of_uint63 (Uint63.of_Z z)
  | Zneg p => PrimFloat.opp (PrimFloat.of_uint63 (Uint63.of_Z (Zpos p)))
  end.

(** [Math.max] on doubles: NaN if either argument is NaN, and [+0] for the
    two zeros of opposite sign. *)
Definition float_max (a b : float) : float :=
  if PrimFloat.is_nan a then a
  else if PrimFloat.is_nan b then b
  else if PrimFloat.ltb a b then b
  else if PrimFloat.eqb a b then (if PrimFloat.get_sign a then b else a)
  else a.

#[export] Instance Float64 : Number float := {
  of_Z := float_of_Z;
  nadd := PrimFloat.add;
  nsub := PrimFloat.sub;
  nmul := PrimFloat.mul;
  ndiv := PrimFloat.div;
  nopp := PrimFloat.opp;
  nltb := PrimFloat.ltb;
  neqb := PrimFloat.eqb;
  nmax := float_max
}.

Definition Qltb (a b : Q) : bool :=
  (Qnum a * QDen b <? Qnum b * QDen a)%Z.

#[export] Instance Exact : Number Q := {
  of_Z := inject_Z;
  nadd := Qplus;
  nsub := Qminus;
  nmul := Qmult;
  ndiv := Qdiv;
  nopp := Qopp;
  nltb := Qltb;
  neqb := Qeq_bool;
  nmax := fun a b => if Qltb a b then b else a
}.

(** ** three.js values *)

Section Values.
Context {num : Type} `{Number num}.
Local Open Scope js_scope.

Record Vector3 : Type := vec3 { vx : num; vy : num; vz : num }.

(** [Matrix4.elements], column-major, sixteen entries. *)
Definition Matrix4 : Type := list num.

Definition el (m : Matrix4) (i : nat) : num := nth i m $0.

(** [Vector3.applyMatrix4]:
<<
  const w = 1 / ( e[3]*x + e[7]*y + e[11]*z + e[15] );
  this.x = ( e[0]*x + e[4]*y + e[8]*z + e[12] ) * w; ...
>> *)
Definition applyMatrix4 (v : Vector3) (e : Matrix4) : Vector3 :=
  let x := vx v in let y := vy v in let z := vz v in
  let w := $1 / (el e 3 * x + el e 7 * y + el e 11 * z + el e 15) in
  vec3 ((el e 0 * x + el e 4 * y + el e 8 * z + el e 12) * w)
       ((el e 1 * x + el e 5 * y + el e 9 * z + el e 13) * w)
       ((el e 2 * x + el e 6 * y + el e 10 * z + el e 14) * w).

(** [Matrix4.makePerspective( left, right, top, bottom, near, far )]. *)
Definition makePerspective (left right top bottom near far : num) : Matrix4 :=
  let x := $2 * near / (right - left) in
  let y := $2 * near / (top - bottom) in
  let a := (right + left) / (right - left) in
  let b := (top + bottom) / (top - bottom) in
  let c := (- (far + near)) / (far - near) in
  let d := (- $2) * far * near / (far - near) in
  [ x;  $0; $0; $0;
    $0; y;  $0; $0;
    a;  b;  c;  - $1;
    $0; $0; d;  $0 ].


Definition multiplyScalar (v : Vector3) (s : num) : Vector3 :=
  vec3 (vx v * s) (vy v * s) (vz v * s).

Definition subVector (a b : Vector3) : Vector3 :=
  vec3 (vx a - vx b) (vy a - vy b) (vz a - vz b).

Definition setScalar (s : num) : Vector3 := vec3 s s s.

Record Box3 : Type := box3 { bmin : Vector3; bmax : Vector3 }.

(** [Box3.isEmpty]: [max < min] on some axis. *)
Definition isEmpty (b : Box3) : bool :=
  (vx (bmax b) <? vx (bmin b)) || (vy (bmax b) <? vy (bmin b))
  || (vz (bmax b) <? vz (bmin b)).

Definition origin : Vector3 := vec3 $0 $0 $0.

(** [Box3.getCenter]: [(min + max) * 0.5], the origin for an empty box. *)
Definition getCenter (b : Box3) : Vector3 :=
  if isEmpty b then origin
  else multiplyScalar
         (vec3 (vx (bmin b) + vx (bmax b)) (vy (bmin b) + vy (bmax b))
               (vz (bmin b) + vz (bmax b)))
         (decimal 5 1).

(** [Box3.getSize]: [max - min], zero for an empty box. *)
Definition getSize (b : Box3) : Vector3 :=
  if isEmpty b then origin else subVector (bmax b) (bmin b).

Record Quaternion : Type := quat { qx : num; qy : num; qz : num; qw : num }.

(** [THREE.PerspectiveCamera], with the fields the viewer reads or writes.
    [matrixWorldInverse] and [projectionMatrix] are the cached matrices
    [Vector3.project] reads. *)
Record PerspectiveCamera : Type := {
  fov : num;
  aspect : num;
  near : num;
  far : num;
  zoom : num;
  position : Vector3;
  quaternion : Quaternion;
  matrixWorldInverse : Matrix4;
  projectionMatrix : Matrix4
}.

(** [Vector3.project( camera )]. *)
Definition project (v : Vector3) (camera : PerspectiveCamera) : Vector3 :=
  applyMatrix4 (applyMatrix4 v (matrixWorldInverse camera))
               (projectionMatrix camera).

(** [THREE.OrbitControls]: the settings the viewer writes, the target, and
    the motion (rotation, pan and zoom deltas) the controls keep between
    two updates. *)
Record OrbitControls : Type := {
  target : Vector3;
  enableDamping : bool;
  dampingFactor : num;
  minDistance : num;
  maxDistance : num;
  autoRotate : bool;
  autoRotateSpeed : num;
  motion : list num
}.

End Values.

Arguments Vector3 num : clear implicits.
Arguments Matrix4 num : clear implicits.
Arguments Box3 num : clear implicits.
Arguments Quaternion num : clear implicits.
Arguments PerspectiveCamera num : clear implicits.
Arguments OrbitControls num : clear implicits.

(** ** Scene graph, pins and the host surface *)

Section Model.
Context {num : Type} `{Number num}.
Local Open Scope js_scope.

Inductive Geometry : Type :=
| LatheGeometry (points : list (num * num)) (segments : Z)
| SphereGeometry (radius : num) (widthSegments heightSegments : Z)
                 (phiStart phiLength thetaStart thetaLength : num)
| BufferGeometry (name : string).

Record Material : Type := {
  name : string;
  color : Z;
  roughness : num;
  metalness : num;
  transparent : bool;
  opacity : num;
  clearcoat : num
}.

(** [Mesh.material] is one material or an array of materials. *)
Inductive MeshMaterial : Type :=
| OneMaterial (m : Material)
| MaterialArray (ms : list Material).

Inductive Kind : Type :=
| Scene (background : Z)
| Group
| Mesh (geometry : Geometry) (material : MeshMaterial)
| AmbientLight (color : Z) (intensity : num)
| DirectionalLight (color : Z) (intensity : num)
| GridHelper (size : num) (divisions : Z) (color1 color2 : Z).

(** An [Object3D]: what it is, its local position and scale, its children.
    The viewer never writes a rotation on a scene node. *)
Inductive Object3D : Type :=
| Obj (kind : Kind) (pos scale : Vector3 num) (children : list Object3D).

Definition kind_of (o : Object3D) : Kind :=
  match o with Obj k _ _ _ => k end.
Definition pos_of (o : Object3D) : Vector3 num :=
  match o with Obj _ p _ _ => p end.
Definition scale_of (o : Object3D) : Vector3 num :=
  match o with Obj _ _ s _ => s end.
Definition children_of (o : Object3D) : list Object3D :=
  match o with Obj _ _ _ cs => cs end.

(** [parent.add( child )] *)
Definition add (parent child : Object3D) : Object3D :=
  match parent with Obj k p s cs => Obj k p s (cs ++ [child]) end.

(** [Object3D.traverse]: the node, then its descendants, depth first. *)
Fixpoint traverse (o : Object3D) : list Object3D :=
  match o with Obj _ _ _ cs => o :: flat_map traverse cs end.

(** [ApiModel3DPin] (src/unnamed/part_000).  The interface declares
    [geometry] as required; a record decoded from a response can still lack
    it, which is [None] here. *)
Record ApiModel3DPin : Type := {
  id : string;
  model_id : string;
  geometry : option (Vector3 num);
  label : option string;
  pin_color : option string;
  order_index : Z
}.

Record Projected2DPin : Type := {
  pin : ApiModel3DPin;
  x : num;
  y : num;
  visible : bool
}.

Record WebGLRenderer : Type := { width : num; height : num }.

(** What one run of the scene effect creates. *)
Record Session : Type := {
  scene : Object3D;
  camera : PerspectiveCamera num;
  controls : OrbitControls num;
  renderer : WebGLRenderer;
  (** the [ResizeObserver] observes the container *)
  observing : bool;
  (** the [dblclick] listener is on the canvas *)
  listening : bool
}.

(** The host [div]: its client size, the size of its bounding rectangle,
    and the canvases (by session) appended to it. *)
Record Container : Type := {
  clientWidth : num;
  clientHeight : num;
  rect_width : num;
  rect_height : num;
  canvases : list nat
}.

(** Calls into the platform and into three.js whose effect is not part of
    the state below. *)
Inductive Event : Type :=
| LoaderLoad (session : nat) (url : string)
| Render (session : nat)
| ConsoleError (message : string)
| CancelAnimationFrame (handle : nat)
| ObserverDisconnect (session : nat)
| RemoveEventListener (session : nat)
| ControlsDispose (session : nat)
| RendererDispose (session : nat)
| RemoveChild (session : nat)
| GeometryDispose (session : nat) (g : Geometry)
| MaterialDispose (session : nat) (m : Material).

Record World : Type := {
  (** the host element, and whether [containerRef.current] is it *)
  host : Container;
  containerRef : bool;
  sessions : list Session;
  rendererRef : option nat;
  sceneRef : option nat;
  cameraRef : option nat;
  controlsRef : option nat;
  animFrameRef : nat;
  (** pending [requestAnimationFrame] callbacks: handle and session *)
  frames : list (nat * nat);
  nextFrame : nat;
  pinsRef : list ApiModel3DPin;
  projected : list Projected2DPin;
  loadProgress : num;
  loadError : option string;
  isLoading : bool;
  log : list Event
}.

(** How a callback ends: normally, or by an exception that leaves the state
    as it was when it was raised. *)
Inductive completion : Type :=
| Normal (w : World)
| Abrupt (e : string) (w : World).

Definition world_of (c : completion) : World :=
  match c with Normal w | Abrupt _ w => w end.

End Model.

Arguments Geometry num : clear implicits.
Arguments Material num : clear implicits.
Arguments MeshMaterial num : clear implicits.
Arguments Kind num : clear implicits.
Arguments Object3D num : clear implicits.
Arguments ApiModel3DPin num : clear implicits.
Arguments Projected2DPin num : clear implicits.
Arguments WebGLRenderer num : clear implicits.
Arguments Session num : clear implicits.
Arguments Container num : clear implicits.
Arguments Event num : clear implicits.
Arguments World num : clear implicits.
Arguments completion num : clear implicits.

(** ** three.js and [Math] functions taken as given

    Trigonometry, the orientation of the camera and the orbit controls'
    update are library code outside the component; the development holds for
    every choice of them. *)

Class ThreeJS (num : Type) `{Number num} : Type := {
  Math_tan : num -> num;
  Math_cos : num -> num;
  (** [camera.lookAt( x, y, z )]: turns the camera, writes its quaternion *)
  lookAt : PerspectiveCamera num -> Vector3 num -> PerspectiveCamera num;
  (** [camera.updateMatrixWorld()]: recomputes the cached world matrices *)
  updateMatrixWorld : PerspectiveCamera num -> PerspectiveCamera num;
  (** [camera.getWorldDirection( dir )] *)
  getWorldDirection : PerspectiveCamera num -> Vector3 num;
  (** [controls.update()], on the camera the controls drive *)
  OrbitControls_update :
    PerspectiveCamera num -> OrbitControls num ->
    PerspectiveCamera num * OrbitControls num;
  (** [new THREE.Box3().setFromObject( model )] *)
  setFromObject : Object3D num -> Box3 num
}.

Arguments ThreeJS num {_}.

(** ** Record updates *)

Section Updates.
Context {num : Type} `{Number num}.

Definition set_aspect (v : num) (r : PerspectiveCamera num) : PerspectiveCamera num :=
  {| fov := fov r; aspect := v; near := near r; far := far r;
     zoom := zoom r; position := position r; quaternion := quaternion r;
     matrixWorldInverse := matrixWorldInverse r;
     projectionMatrix := projectionMatrix r |}.

Definition set_position (v : Vector3 num) (r : PerspectiveCamera num) : PerspectiveCamera num :=
  {| fov := fov r; aspect := aspect r; near := near r; far := far r;
     zoom := zoom r; position := v; quaternion := quaternion r;
     matrixWorldInverse := matrixWorldInverse r;
     projectionMatrix := projectionMatrix r |}.

Definition set_projectionMatrix (v : Matrix4 num) (r : PerspectiveCamera num) : PerspectiveCamera num :=
  {| fov := fov r; aspect := aspect r; near := near r; far := far r;
     zoom := zoom r; position := position r; quaternion := quaternion r;
     matrixWorldInverse := matrixWorldInverse r; projectionMatrix := v |}.

Definition set_target (v : Vector3 num) (r : OrbitControls num) : OrbitControls num :=
  {| target := v; enableDamping := enableDamping r;
     dampingFactor := dampingFactor r; minDistance := minDistance r;
     maxDistance := maxDistance r; autoRotate := autoRotate r;
     autoRotateSpeed := autoRotateSpeed r; motion := motion r |}.

Definition set_canvases (v : list nat) (r : Container num) : Container num :=
  {| clientWidth := clientWidth r; clientHeight := clientHeight r;
     rect_width := rect_width r; rect_height := rect_height r;
     canvases := v |}.

Definition set_scene (v : Object3D num) (r : Session num) : Session num :=
  {| scene := v; camera := camera r; controls := controls r;
     renderer := renderer r; observing := observing r;
     listening := listening r |}.

Definition set_camera (v : PerspectiveCamera num) (r : Session num) : Session num :=
  {| scene := scene r; camera := v; controls := controls r;
     renderer := renderer r; observing := observing r;
     listening := listening r |}.

Definition set_controls (v : OrbitControls num) (r : Session num) : Session num :=
  {| scene := scene r; camera := camera r; controls := v;
     renderer := renderer r; observing := observing r;
     listening := listening r |}.

Definition set_renderer (v : WebGLRenderer num) (r : Session num) : Session num :=
  {| scene := scene r; camera := camera r; controls := controls r;
     renderer := v; observing := observing r; listening := listening r |}.

Definition set_observing (v : bool) (r : Session num) : Session num :=
  {| scene := scene r; camera := camera r; controls := controls r;
     renderer := renderer r; observing := v; listening := listening r |}.

Definition set_listening (v : bool) (r : Session num) : Session num :=
  {| scene := scene r; camera := camera r; controls := controls r;
     renderer := renderer r; observing := observing r; listening := v |}.

Definition set_host (v : Container num) (r : World num) : World num :=
  {| host := v; containerRef := containerRef r; sessions := sessions r;
     rendererRef := rendererRef r; sceneRef := sceneRef r;
     cameraRef := cameraRef r; controlsRef := controlsRef r;
     animFrameRef := animFrameRef r; frames := frames r;
     nextFrame := nextFrame r; pinsRef := pinsRef r;
     projected := projected r; loadProgress := loadProgress r;
     loadError := loadError r; isLoading := isLoading r; log := log r |}.

Definition set_sessions (v : list (Session num)) (r : World num) : World num :=
  {| host := host r; containerRef := containerRef r; sessions := v;
     rendererRef := rendererRef r; sceneRef := sceneRef r;
     cameraRef := cameraRef r; controlsRef := controlsRef r;
     animFrameRef := animFrameRef r; frames := frames r;
     nextFrame := nextFrame r; pinsRef := pinsRef r;
     projected := projected r; loadProgress := loadProgress r;
     loadError := loadError r; isLoading := isLoading r; log := log r |}.

Definition set_rendererRef (v : option nat) (r : World num) : World num :=
  {| host := host r; containerRef := containerRef r;
     sessions := sessions r; rendererRef := v; sceneRef := sceneRef r;
     cameraRef := cameraRef r; controlsRef := controlsRef r;
     animFrameRef := animFrameRef r; frames := frames r;
     nextFrame := nextFrame r; pinsRef := pinsRef r;
     projected := projected r; loadProgress := loadProgress r;
     loadError := loadError r; isLoading := isLoading r; log := log r |}.

Definition set_sceneRef (v : option nat) (r : World num) : World num :=
  {| host := host r; containerRef := containerRef r;
     sessions := sessions r; rendererRef := rendererRef r; sceneRef := v;
     cameraRef := cameraRef r; controlsRef := controlsRef r;
     animFrameRef := animFrameRef r; frames := frames r;
     nextFrame := nextFrame r; pinsRef := pinsRef r;
     projected := projected r; loadProgress := loadProgress r;
     loadError := loadError r; isLoading := isLoading r; log := log r |}.

Definition set_cameraRef (v : option nat) (r : World num) : World num :=
  {| host := host r; containerRef := containerRef r;
     sessions := sessions r; rendererRef := rendererRef r;
     sceneRef := sceneRef r; cameraRef := v; controlsRef := controlsRef r;
     animFrameRef := animFrameRef r; frames := frames r;
     nextFrame := nextFrame r; pinsRef := pinsRef r;
     projected := projected r; loadProgress := loadProgress r;
     loadError := loadError r; isLoading := isLoading r; log := log r |}.

Definition set_controlsRef (v : option nat) (r : World num) : World num :=
  {| host := host r; containerRef := containerRef r;
     sessions := sessions r; rendererRef := rendererRef r;
     sceneRef := sceneRef r; cameraRef := cameraRef r; controlsRef := v;
     animFrameRef := animFrameRef r; frames := frames r;
     nextFrame := nextFrame r; pinsRef := pinsRef r;
     projected := projected r; loadProgress := loadProgress r;
     loadError := loadError r; isLoading := isLoading r; log := log r |}.

Definition set_animFrameRef (v : nat) (r : World num) : World num :=
  {| host := host r; containerRef := containerRef r;
     sessions := sessions r; rendererRef := rendererRef r;
     sceneRef := sceneRef r; cameraRef := cameraRef r;
     controlsRef := controlsRef r; animFrameRef := v; frames := frames r;
     nextFrame := nextFrame r; pinsRef := pinsRef r;
     projected := projected r; loadProgress := loadProgress r;
     loadError := loadError r; isLoading := isLoading r; log := log r |}.

Definition set_frames (v : list (nat * nat)) (r : World num) : World num :=
  {| host := host r; containerRef := containerRef r;
     sessions := sessions r; rendererRef := rendererRef r;
     sceneRef := sceneRef r; cameraRef := cameraRef r;
     controlsRef := controlsRef r; animFrameRef := animFrameRef r;
     frames := v; nextFrame := nextFrame r; pinsRef := pinsRef r;
     projected := projected r; loadProgress := loadProgress r;
     loadError := loadError r; isLoading := isLoading r; log := log r |}.

Definition set_nextFrame (v : nat) (r : World num) : World num :=
  {| host := host r; containerRef := containerRef r;
     sessions := sessions r; rendererRef := rendererRef r;
     sceneRef := sceneRef r; cameraRef := cameraRef r;
     controlsRef := controlsRef r; animFrameRef := animFrameRef r;
     frames := frames r; nextFrame := v; pinsRef := pinsRef r;
     projected := projected r; loadProgress := loadProgress r;
     loadError := loadError r; isLoading := isLoading r; log := log r |}.

Definition set_pinsRef (v : list (ApiModel3DPin num)) (r : World num) : World num :=
  {| host := host r; containerRef := containerRef r;
     sessions := sessions r; rendererRef := rendererRef r;
     sceneRef := sceneRef r; cameraRef := cameraRef r;
     controlsRef := controlsRef r; animFrameRef := animFrameRef r;
     frames := frames r; nextFrame := nextFrame r; pinsRef := v;
     projected := projected r; loadProgress := loadProgress r;
     loadError := loadError r; isLoading := isLoading r; log := log r |}.

Definition set_projected (v : list (Projected2DPin num)) (r : World num) : World num :=
  {| host := host r; containerRef := containerRef r;
     sessions := sessions r; rendererRef := rendererRef r;
     sceneRef := sceneRef r; cameraRef := cameraRef r;
     controlsRef := controlsRef r; animFrameRef := animFrameRef r;
     frames := frames r; nextFrame := nextFrame r; pinsRef := pinsRef r;
     projected := v; loadProgress := loadProgress r;
     loadError := loadError r; isLoading := isLoading r; log := log r |}.

Definition set_loadProgress (v : num) (r : World num) : World num :=
  {| host := host r; containerRef := containerRef r;
     sessions := sessions r; rendererRef := rendererRef r;
     sceneRef := sceneRef r; cameraRef := cameraRef r;
     controlsRef := controlsRef r; animFrameRef := animFrameRef r;
     frames := frames r; nextFrame := nextFrame r; pinsRef := pinsRef r;
     projected := projected r; loadProgress := v; loadError := loadError r;
     isLoading := isLoading r; log := log r |}.

Definition set_loadError (v : option string) (r : World num) : World num :=
  {| host := host r; containerRef := containerRef r;
     sessions := sessions r; rendererRef := rendererRef r;
     sceneRef := sceneRef r; cameraRef := cameraRef r;
     controlsRef := controlsRef r; animFrameRef := animFrameRef r;
     frames := frames r; nextFrame := nextFrame r; pinsRef := pinsRef r;
     projected := projected r; loadProgress := loadProgress r;
     loadError := v; isLoading := isLoading r; log := log r |}.

Definition set_isLoading (v : bool) (r : World num) : World num :=
  {| host := host r; containerRef := containerRef r;
     sessions := sessions r; rendererRef := rendererRef r;
     sceneRef := sceneRef r; cameraRef := cameraRef r;
     controlsRef := controlsRef r; animFrameRef := animFrameRef r;
     frames := frames r; nextFrame := nextFrame r; pinsRef := pinsRef r;
     projected := projected r; loadProgress := loadProgress r;
     loadError := loadError r; isLoading := v; log := log r |}.

Definition set_log (v : list (Event num)) (r : World num) : World num :=
  {| host := host r; containerRef := containerRef r;
     sessions := sessions r; rendererRef := rendererRef r;
     sceneRef := sceneRef r; cameraRef := cameraRef r;
     controlsRef := controlsRef r; animFrameRef := animFrameRef r;
     frames := frames r; nextFrame := nextFrame r; pinsRef := pinsRef r;
     projected := projected r; loadProgress := loadProgress r;
     loadError := loadError r; isLoading := isLoading r; log := v |}.

(** The list with [f] applied to its [n]-th element. *)
Fixpoint update_nth {A : Type} (n : nat) (f : A -> A) (l : list A) : list A :=
  match l, n with
  | [], _ => []
  | a :: l', O => f a :: l'
  | a :: l', S n' => a :: update_nth n' f l'
  end.

Definition session (sid : nat) (w : World num) : option (Session num) :=
  nth_error (sessions w) sid.

Definition update_session (sid : nat) (f : Session num -> Session num)
    (w : World num) : World num :=
  set_sessions (update_nth sid f (sessions w)) w.

Definition emit (e : Event num) (w : World num) : World num :=
  set_log (log w ++ [e]) w.

End Updates.

(** ** Exceptions *)

Inductive result (A : Type) : Type :=
| Ok (a : A)
| Throw (e : string).
Arguments Ok {A} a.
Arguments Throw {A} e.

Definition bind {A B : Type} (c : result A) (k : A -> result B) : result B :=
  match c with
  | Ok a => k a
  | Throw e => Throw e
  end.

Notation "x <- c ;; k" := (bind c (fun x => k))
  (at level 61, c at next level, right associativity).

(** [Array.prototype.map] with a callback that may throw. *)
Fixpoint mapM {A B : Type} (f : A -> result B) (l : list A) : result (list B) :=
  match l with
  | [] => Ok []
  | a :: l' => b <- f a ;; bs <- mapM f l' ;; Ok (b :: bs)
  end.

(** ** The component *)

Section Viewer.
Context {num : Type} `{ThreeJS num}.
Local Open Scope js_scope.

Definition Math_PI : num := decimal 3141592653589793 15.

(** [MathUtils.DEG2RAD] *)
Definition DEG2RAD : num := Math_PI / $180.

(** [PerspectiveCamera.updateProjectionMatrix] (no view offset, no film
    offset). *)
Definition updateProjectionMatrix (c : PerspectiveCamera num)
    : PerspectiveCamera num :=
  let top := near c * Math_tan (DEG2RAD * decimal 5 1 * fov c) / zoom c in
  let height := $2 * top in
  let width := aspect c * height in
  let left := (- decimal 5 1) * width in
  set_projectionMatrix
    (makePerspective left (left + width) top (top - height) (near c) (far c))
    c.

Definition identity : Matrix4 num :=
  [ $1; $0; $0; $0;  $0; $1; $0; $0;  $0; $0; $1; $0;  $0; $0; $0; $1 ].

(** [new THREE.PerspectiveCamera( fov, aspect, near, far )] *)
Definition newPerspectiveCamera (fov aspect near far : num)
    : PerspectiveCamera num :=
  updateProjectionMatrix
    {| fov := fov; aspect := aspect; near := near; far := far; zoom := $1;
       position := origin; quaternion := quat $0 $0 $0 $1;
       matrixWorldInverse := identity; projectionMatrix := identity |}.

(** *** projectPins (lines 97-117) *)

Definition TypeError : string := "TypeError".

(** [pin.geometry.x] on a pin without [geometry] is a [TypeError]. *)
Definition projectPin (camera : PerspectiveCamera num) (rect : Container num)
    (p : ApiModel3DPin num) : result (Projected2DPin num) :=
  match geometry p with
  | None => Throw TypeError
  | Some g =>
      let vec := project (vec3 (vx g) (vy g) (vz g)) camera in
      Ok {| pin := p;
            x := (vx vec * decimal 5 1 + decimal 5 1) * rect_width rect;
            y := ((- vy vec) * decimal 5 1 + decimal 5 1) * rect_height rect;
            visible := vz vec <? $1 |}
  end.

Definition current_camera (w : World num) : option (PerspectiveCamera num) :=
  match cameraRef w with
  | Some sid => option_map (@camera num) (session sid w)
  | None => None
  end.

Definition projectPins (w : World num) : completion num :=
  let currentPins := pinsRef w in
  match current_camera w, containerRef w, currentPins with
  | None, _, _ | _, false, _ | _, _, [] => Normal (set_projected [] w)
  | Some camera, true, _ =>
      match mapM (projectPin camera (host w)) currentPins with
      | Ok result => Normal (set_projected result w)
      | Throw e => Abrupt e w
      end
  end.

(** *** buildFallbackModel (lines 534-570) *)

Definition unit_scale : Vector3 num := vec3 $1 $1 $1.

Definition mesh (g : Geometry num) (m : Material num) (p : Vector3 num)
    : Object3D num :=
  Obj (Mesh g (OneMaterial m)) p unit_scale [].

Definition sphere (radius : num) (w h : Z) : Geometry num :=
  SphereGeometry radius w h $0 (Math_PI * $2) $0 Math_PI.

Definition boneMat : Material num :=
  {| name := "boneMat"; color := 0xf5e6d3; roughness := decimal 6 1;
     metalness := decimal 5 2; transparent := false; opacity := $1;
     clearcoat := decimal 1 1 |}.

Definition cartMat : Material num :=
  {| name := "cartMat"; color := 0xb8d4e3; roughness := decimal 4 1;
     metalness := $0; transparent := true; opacity := decimal 85 2;
     clearcoat := decimal 5 1 |}.

Definition shaftPoints : list (num * num) :=
  map (fun i : nat =>
         let t := $(Z.of_nat i) / $20 in
         let y := t * $4 - $2 in
         let r := decimal 25 2 + decimal 15 2 * Math_cos (Math_PI * t) in
         (r, y))
      (seq 0 21).

Definition fallbackMeshes : list (Object3D num) :=
  [ mesh (LatheGeometry shaftPoints 24) boneMat origin;
    mesh (sphere (decimal 55 2) 24 24) boneMat (vec3 $0 $2 $0);
    mesh (sphere (decimal 4 1) 20 20) boneMat (vec3 (- decimal 2 1) (- $2) $0);
    mesh (sphere (decimal 4 1) 20 20) boneMat (vec3 (decimal 2 1) (- $2) $0);
    mesh (SphereGeometry (decimal 56 2) 24 24 $0 (Math_PI * $2) $0
                         (Math_PI / $3))
         cartMat (vec3 $0 $2 $0) ].

Definition buildFallbackModel (scene : Object3D num) : Object3D num :=
  fold_left (@add num) fallbackMeshes scene.

(** *** The animation loop (lines 221-227) *)

(** [requestAnimationFrame( animate )] from the loop of session [sid]. *)
Definition requestAnimationFrame (sid : nat) (w : World num)
    : nat * World num :=
  let handle := nextFrame w in
  (handle, set_nextFrame (S handle) (set_frames (frames w ++ [(handle, sid)]) w)).

Definition cancelAnimationFrame (handle : nat) (w : World num) : World num :=
  emit (CancelAnimationFrame handle)
    (set_frames (filter (fun f => negb (Nat.eqb (fst f) handle)) (frames w)) w).

(** [controls.update()] on the camera and the controls of a session. *)
Definition update_rig (s : Session num) : Session num :=
  let (c, o) := OrbitControls_update (camera s) (controls s) in
  set_camera c (set_controls o s).

(** [controls.update()] for the controls of session [sid]. *)
Definition controls_update (sid : nat) (w : World num) : World num :=
  update_session sid update_rig w.

(** [renderer.render( scene, camera )]: refreshes the camera's world
    matrices and draws. *)
Definition render (sid : nat) (w : World num) : World num :=
  emit (Render sid)
    (update_session sid (fun s => set_camera (updateMatrixWorld (camera s)) s) w).

Definition animate (sid : nat) (w : World num) : completion num :=
  let (handle, w) := requestAnimationFrame sid w in
  let w := set_animFrameRef handle w in
  let w := controls_update sid w in
  let w := render sid w in
  projectPins w.

(** The browser runs the pending frame callback [handle], if it is still
    scheduled. *)
Definition runFrame (handle : nat) (w : World num) : completion num :=
  match find (fun f => Nat.eqb (fst f) handle) (frames w) with
  | Some (_, sid) =>
      animate sid
        (set_frames (filter (fun f => negb (Nat.eqb (fst f) handle)) (frames w)) w)
  | None => Normal w
  end.

(** *** Resizing (lines 230-239) *)

(** The guard [if (!container) return] never fires: [container] is the
    element the effect checked before it went on. *)
Definition handleResize (sid : nat) (w : World num) : World num :=
  let wd := clientWidth (host w) in
  let ht := clientHeight (host w) in
  update_session sid
    (fun s =>
       set_renderer {| width := wd; height := ht |}
         (set_camera (updateProjectionMatrix (set_aspect (wd / ht) (camera s))) s))
    w.

(** The host surface takes a new size; every connected observer runs its
    callback. *)
Definition resizeHost (cw ch rw rh : num) (w : World num) : World num :=
  let w := set_host {| clientWidth := cw; clientHeight := ch;
                       rect_width := rw; rect_height := rh;
                       canvases := canvases (host w) |} w in
  fold_left
    (fun w sid =>
       match session sid w with
       | Some s => if observing s then handleResize sid w else w
       | None => w
       end)
    (seq 0 (List.length (sessions w))) w.

(** *** The scene effect (lines 120-281) *)

Definition lights : list (Object3D num) :=
  [ Obj (AmbientLight 0x606080 $1) origin unit_scale [];
    Obj (DirectionalLight 0xffffff $2) (vec3 $5 $8 $5) unit_scale [];
    Obj (DirectionalLight 0x8888ff (decimal 5 1)) (vec3 (- $3) $2 (- $3))
        unit_scale [];
    Obj (DirectionalLight 0x4488ff (decimal 4 1)) (vec3 $0 (- $2) (- $5))
        unit_scale [];
    Obj (GridHelper $10 20 0x222244 0x181828) (vec3 $0 (- decimal 15 1) $0)
        unit_scale [] ].

Definition newOrbitControls : OrbitControls num :=
  {| target := origin; enableDamping := true; dampingFactor := decimal 8 2;
     minDistance := decimal 5 1; maxDistance := $20; autoRotate := true;
     autoRotateSpeed := decimal 5 1; motion := [] |}.

(** [if (fileUrl)]: a URL that is given and not the empty string. *)
Definition truthy (fileUrl : option string) : option string :=
  match fileUrl with
  | Some EmptyString | None => None
  | Some url => Some url
  end.

(** The body of the scene effect.  The objects it creates become session
    [length (sessions w)]; the cleanup it returns is [cleanup] of that
    session. *)
Definition sceneEffect (fileUrl : option string) (w : World num)
    : completion num :=
  if negb (containerRef w) then Normal w
  else
    let container := host w in
    let sid := List.length (sessions w) in
    let w := set_loadProgress $0 (set_loadError None (set_isLoading true w)) in
    let root := Obj (Scene 0x0a0a12) origin unit_scale [] in
    let cam :=
      newPerspectiveCamera $45 (clientWidth container / clientHeight container)
                           (decimal 1 2) $200 in
    let cam := lookAt (set_position (vec3 $3 $2 $4) cam) origin in
    let canvas :=
      {| width := clientWidth container; height := clientHeight container |} in
    let w := set_host (set_canvases (canvases container ++ [sid]) container) w in
    let root := fold_left (@add num) lights root in
    let w :=
      set_sessions
        (sessions w ++
         [{| scene := root; camera := cam; controls := newOrbitControls;
             renderer := canvas; observing := false; listening := false |}])
        w in
    let w :=
      set_controlsRef (Some sid)
        (set_rendererRef (Some sid)
           (set_cameraRef (Some sid) (set_sceneRef (Some sid) w))) in
    let w :=
      match truthy fileUrl with
      | Some url => emit (LoaderLoad sid url) w
      | None =>
          set_isLoading false
            (update_session sid (fun s => set_scene (buildFallbackModel (scene s)) s) w)
      end in
    match animate sid w with
    | Normal w =>
        Normal
          (update_session sid (fun s => set_listening true (set_observing true s)) w)
    | Abrupt e w => Abrupt e w
    end.

(** *** The loader callbacks (lines 185-213) *)

Definition onLoad (sid : nat) (model : Object3D num) (w : World num)
    : World num :=
  let box := setFromObject model in
  let center := getCenter box in
  let size := getSize box in
  let maxDim := nmax (nmax (vx size) (vy size)) (vz size) in
  let scale := $3 / maxDim in
  let model :=
    Obj (kind_of model)
        (subVector (pos_of model) (multiplyScalar center scale))
        (setScalar scale) (children_of model) in
  let w :=
    update_session sid
      (fun s =>
         set_camera
           (set_position
              (vec3 (maxDim * scale * decimal 15 1) (maxDim * scale)
                    (maxDim * scale * decimal 15 1))
              (camera s))
           (set_controls (set_target origin (controls s))
              (set_scene (add (scene s) model) s)))
      w in
  let w := controls_update sid w in
  set_isLoading false w.

Definition onError (sid : nat) (w : World num) : World num :=
  let w := emit (ConsoleError "[3D] Load error:") w in
  let w := set_loadError (Some "Error al cargar el modelo 3D"%string) w in
  let w := update_session sid (fun s => set_scene (buildFallbackModel (scene s)) s) w in
  set_isLoading false w.

(** *** The cleanup of the scene effect (lines 264-280) *)

Definition dispose_materials (sid : nat) (m : MeshMaterial num)
    : list (Event num) :=
  match m with
  | MaterialArray ms => map (MaterialDispose sid) ms
  | OneMaterial m => [MaterialDispose sid m]
  end.

Definition dispose_object (sid : nat) (obj : Object3D num) : list (Event num) :=
  match kind_of obj with
  | Mesh g m => GeometryDispose sid g :: dispose_materials sid m
  | _ => []
  end.

Definition cleanup (sid : nat) (w : World num) : World num :=
  match session sid w with
  | None => w
  | Some s =>
      let w := cancelAnimationFrame (animFrameRef w) w in
      let w := emit (ObserverDisconnect sid)
                 (update_session sid (set_observing false) w) in
      let w := emit (RemoveEventListener sid)
                 (update_session sid (set_listening false) w) in
      let w := emit (ControlsDispose sid) w in
      let w := emit (RendererDispose sid) w in
      let w :=
        if existsb (Nat.eqb sid) (canvases (host w)) then
          emit (RemoveChild sid)
            (set_host
               (set_canvases
                  (filter (fun c => negb (Nat.eqb c sid)) (canvases (host w)))
                  (host w))
               w)
        else w in
      set_log (log w ++ flat_map (dispose_object sid) (traverse (scene s))) w
  end.

(** *** Camera buttons (lines 307-329) *)




(** The effect of line 92: the ref follows the pin list. *)
Definition syncPins (pins : list (ApiModel3DPin num)) (w : World num)
    : World num :=
  set_pinsRef pins w.

(** The component before its first effect: no session, every ref empty,
    the loading flag up. *)
Definition mount (host : Container num) : World num :=
  {| host := host; containerRef := true; sessions := [];
     rendererRef := None; sceneRef := None; cameraRef := None;
     controlsRef := None; animFrameRef := 0; frames := []; nextFrame := 1;
     pinsRef := []; projected := []; loadProgress := $0; loadError := None;
     isLoading := true; log := [] |}.

End Viewer.

(** ** Reading the state *)

Section Reading.
Context {num : Type} `{ThreeJS num}.
Local Open Scope js_scope.

(** A pin that has a position. *)
Definition placed (p : ApiModel3DPin num) : Prop := geometry p <> None.

Definition position_of (p : ApiModel3DPin num) : Vector3 num :=
  match geometry p with Some g => g | None => origin end.

(** The normalized device coordinates of a pin for a camera. *)
Definition ndc (camera : PerspectiveCamera num) (p : ApiModel3DPin num)
    : Vector3 num :=
  project (position_of p) camera.

(** Row [i] of a matrix, applied to the point [(x, y, z, 1)]. *)
Definition row (m : Matrix4 num) (i : nat) (v : Vector3 num) : num :=
  el m i * vx v + el m (4 + i) * vy v + el m (8 + i) * vz v + el m (12 + i).

(** A point taken through a matrix in homogeneous coordinates: the first
    three rows, each times the reciprocal of the fourth. *)
Definition through (m : Matrix4 num) (v : Vector3 num) : Vector3 num :=
  vec3 (row m 0 v * ($1 / row m 3 v)) (row m 1 v * ($1 / row m 3 v))
       (row m 2 v * ($1 / row m 3 v)).

(** Normalized device coordinates written out: the position taken to
    camera space by the inverse of the camera's world matrix, and from
    there through the projection matrix. *)
Definition device_coordinates (camera : PerspectiveCamera num)
    (g : Vector3 num) : Vector3 num :=
  through (projectionMatrix camera) (through (matrixWorldInverse camera) g).

(** The pin is behind the camera: its camera-space z is positive (a
    three.js camera looks down its negative z axis), so its distance along
    the view direction is negative. *)
Definition behind (camera : PerspectiveCamera num) (p : ApiModel3DPin num)
    : Prop :=
  ($0 <? vz (applyMatrix4 (position_of p) (matrixWorldInverse camera))) = true.

(** The distance of a pin from the camera along its view direction: the
    opposite of its camera-space z. *)
Definition view_distance (camera : PerspectiveCamera num)
    (p : ApiModel3DPin num) : num :=
  - vz (applyMatrix4 (position_of p) (matrixWorldInverse camera)).

(** The frustum the scene effect gives its camera: near plane 0.01, far
    plane 200, and a projection matrix that is up to date. *)
Definition fixed_frustum (camera : PerspectiveCamera num) : Prop :=
  near camera = decimal 1 2 /\ far camera = $200 /\
  projectionMatrix camera = projectionMatrix (updateProjectionMatrix camera).





Definition is_render (sid : nat) (e : Event num) : bool :=
  match e with Render k => Nat.eqb k sid | _ => false end.

Definition is_dispose (sid : nat) (e : Event num) : bool :=
  match e with
  | ControlsDispose k | RendererDispose k | GeometryDispose k _
  | MaterialDispose k _ => Nat.eqb k sid
  | _ => false
  end.

Definition is_renderer_dispose (sid : nat) (e : Event num) : bool :=
  match e with RendererDispose k => Nat.eqb k sid | _ => false end.

(** The calls one run of [cleanup] makes before it looks at the canvas. *)
Definition teardown_calls (handle sid : nat) : list (Event num) :=
  [CancelAnimationFrame handle; ObserverDisconnect sid; RemoveEventListener sid;
   ControlsDispose sid; RendererDispose sid].

(** Every pending frame callback is the one whose handle [animFrameRef]
    holds: the loop keeps one request in flight and records it. *)
Definition loop_registered (w : World num) : Prop :=
  forall f, In f (frames w) -> fst f = animFrameRef w.

(** The state in which a tick of session [sid] calls [projectPins]. *)
Definition before_projection (sid : nat) (w : World num) : World num :=
  render sid
    (controls_update sid
       (set_animFrameRef (nextFrame w)
          (set_nextFrame (S (nextFrame w))
             (set_frames (frames w ++ [(nextFrame w, sid)]) w)))).

(** The largest dimension of the bounding box of a model. *)
Definition maxDim (model : Object3D num) : num :=
  let size := getSize (setFromObject model) in
  nmax (nmax (vx size) (vy size)) (vz size).

(** The model as [onLoad] adds it to the scene. *)
Definition fitted (model : Object3D num) : Object3D num :=
  let scale := $3 / maxDim model in
  Obj (kind_of model)
      (subVector (pos_of model)
                 (multiplyScalar (getCenter (setFromObject model)) scale))
      (setScalar scale) (children_of model).

(** Where [onLoad] puts the camera. *)
Definition framing (model : Object3D num) : Vector3 num :=
  let scale := $3 / maxDim model in
  vec3 (maxDim model * scale * decimal 15 1) (maxDim model * scale)
       (maxDim model * scale * decimal 15 1).

(** How many logged events satisfy [p]. *)
Definition count (p : Event num -> bool) (w : World num) : nat :=
  List.length (filter p (log w)).

End Reading.

(** ** Pointer, markers, progress and reloads

    The remaining callbacks of the component: the double-click handler
    (lines 242-261), the marker overlay (lines 408-449), the progress
    callback of the loader (lines 202-206), and what React does with the
    scene effect when the URL changes. *)

(** A hit of the raycaster: the point, and the normal of the face if the
    hit has one. *)
Record Intersection (num : Type) : Type := {
  point : Vector3 num;
  face_normal : option (Vector3 num)
}.

(** [raycaster.setFromCamera( mouse, camera )] followed by
    [raycaster.intersectObjects( meshes, false )]: the hits, nearest
    first.  Library code, taken as given. *)
Class Raycasting (num : Type) `{Number num} : Type := {
  intersectObjects :
    num * num -> PerspectiveCamera num -> list (Object3D num) ->
    list (Intersection num)
}.

Arguments Raycasting num {_}.

Section Pointer.
Context {num : Type} `{ThreeJS num} {R : Raycasting num}.
Local Open Scope js_scope.

Record MouseEvent : Type := { clientX : num; clientY : num }.

(** [mouseRef.current] after the two assignments of [handleClick], for a
    bounding rectangle whose corner is at [(left, top)]. *)
Definition pointer (left top : num) (rect : Container num) (event : MouseEvent)
    : num * num :=
  ((clientX event - left) / rect_width rect * $2 - $1,
   (- ((clientY event - top) / rect_height rect)) * $2 + $1).

Definition is_mesh (o : Object3D num) : bool :=
  match kind_of o with Mesh _ _ => true | _ => false end.

(** The meshes [handleClick] collects with [traverse]. *)
Definition meshes (root : Object3D num) : list (Object3D num) :=
  filter is_mesh (traverse root).

(** [handleClick] of session [sid]: the arguments with which it calls
    [onPinPlaced], if it calls it.  [editMode] and [onPinPlaced] are what
    [editModeRef] and [onPinPlacedRef] hold (a callback or none). *)
Definition handleClick (editMode onPinPlaced : bool) (left top : num)
    (event : MouseEvent) (sid : nat) (w : World num)
    : option (Vector3 num * option (Vector3 num)) :=
  if negb editMode || negb onPinPlaced then None
  else
    match sceneRef w with
    | None => None
    | Some k =>
        match session k w, session sid w with
        | Some current, Some s =>
            let mouse := pointer left top (host w) event in
            match intersectObjects mouse (camera s) (meshes (scene current)) with
            | [] => None
            | hit :: _ => Some (point hit, face_normal hit)
            end
        | _, _ => None
        end
    end.

(** A node is within a tree: it is the tree or within one of its
    children. *)
Inductive within (o : Object3D num) : Object3D num -> Prop :=
| within_self : within o o
| within_child (k : Kind num) (p sc : Vector3 num) (cs : list (Object3D num))
    (c : Object3D num) :
    In c cs -> within o c -> within o (Obj k p sc cs).

(** A marker of the overlay: its React key and where it is put. *)
Record Marker : Type := {
  key : string;
  style_left : num;
  style_top : num;
  backgroundColor : string
}.

(** [pin.color || '#a78bfa'] *)
Definition color_of (p : ApiModel3DPin num) : string :=
  match pin_color p with
  | Some EmptyString | None => "#a78bfa"
  | Some c => c
  end.

(** The markers the component renders: none while pins are hidden, else
    one per projected pin that is visible. *)
Definition markers (showPins : bool) (ps : list (Projected2DPin num))
    : list Marker :=
  if showPins then
    map (fun q => {| key := id (pin q); style_left := x q; style_top := y q;
                     backgroundColor := color_of (pin q) |})
        (filter (@visible num) ps)
  else [].

(** The browser runs the registered frame callback, [n] times over. *)
Fixpoint ticks (n : nat) (w : World num) : World num :=
  match n with
  | O => w
  | S n' => ticks n' (world_of (runFrame (animFrameRef w) w))
  end.

(** React re-runs the scene effect for a new URL: the cleanup of the
    previous run, then the body. *)
Definition rerun (fileUrl : option string) (previous : nat) (w : World num)
    : completion num :=
  sceneEffect fileUrl (cleanup previous w).

End Pointer.

(** [Math.round]: the integer nearest to its argument, a tie going up. *)
Class Rounding (num : Type) : Type := { Math_round : num -> num }.

(** In exact arithmetic. *)
#[export] Instance Exact_round : Rounding Q :=
  {| Math_round := fun q => inject_Z (Qfloor (q + (1 # 2))) |}.

(** On doubles.  NaN, the infinities, the zeros and the doubles that are
    whole numbers already are returned as they are; for the others the
    nearest integer is computed on the mantissa and the exponent, without
    rounding on the way, and a negative argument that rounds to zero gives
    [-0]. *)
Definition float_round (x : float) : float :=
  match Prim2SF x with
  | S754_finite s m e =>
      if (0 <=? e)%Z then x
      else
        let v := if s then Z.neg m else Z.pos m in
        let r := Z.shiftr (2 * v + 2 ^ (- e)) (1 - e) in
        if (r =? 0)%Z then (if s then PrimFloat.neg_zero else PrimFloat.zero)
        else float_of_Z r
  | _ => x
  end.

#[export] Instance Float64_round : Rounding float :=
  {| Math_round := float_round |}.

(** The progress callback of the loader (lines 202-206). *)
Definition onProgress {num : Type} `{Number num} {R : Rounding num}
    (loaded total : num) (w : World num) : World num :=
  if ($0 <? total)%js
  then set_loadProgress (Math_round (loaded / total * $100)%js) w
  else w.

(** ** Sample data

    A stand-in for the library functions, to run the definitions on
    examples: a camera that is never turned (it looks down its negative z
    axis), controls at rest, a loaded model whose bounding box is
    [(-1,-2,-1) .. (1,2,1)], and the first terms of the series of the tangent
    and the cosine. *)

#[export] Instance Still {num : Type} `{Number num} : ThreeJS num := {
  Math_tan := fun a => (a + a * a * a / $3)%js;
  Math_cos := fun a => ($1 - a * a / $2)%js;
  lookAt := fun c _ => c;
  updateMatrixWorld := fun c => c;
  getWorldDirection := fun _ => vec3 $0%js $0%js (- $1)%js;
  OrbitControls_update := fun c o => (c, o);
  setFromObject := fun _ =>
    box3 (vec3 (- $1) (- $2) (- $1))%js (vec3 $1 $2 $1)%js
}.

(** Two stand-ins for the raycaster: a ray that hits nothing, and a ray
    that hits every candidate at its position, in the order given. *)
Definition Miss {num : Type} `{Number num} : Raycasting num :=
  {| intersectObjects := fun _ _ _ => [] |}.

Definition HitAll {num : Type} `{Number num} : Raycasting num :=
  {| intersectObjects := fun _ _ candidates =>
       map (fun o => {| point := pos_of o; face_normal := None |}) candidates |}.

(** The same stand-in with the model of a glTF that has no geometry: its
    bounding box is the empty box, from plus infinity to minus infinity. *)
Definition Hollow : ThreeJS float := {|
  Math_tan := @Math_tan float _ Still;
  Math_cos := @Math_cos float _ Still;
  lookAt := @lookAt float _ Still;
  updateMatrixWorld := @updateMatrixWorld float _ Still;
  getWorldDirection := @getWorldDirection float _ Still;
  OrbitControls_update := @OrbitControls_update float _ Still;
  setFromObject := fun _ =>
    box3 (vec3 PrimFloat.infinity PrimFloat.infinity PrimFloat.infinity)
         (vec3 PrimFloat.neg_infinity PrimFloat.neg_infinity PrimFloat.neg_infinity)
|}.

Section Samples.
Context {num : Type} `{Number num}.
Local Open Scope js_scope.

Definition surface (wd ht : Z) : Container num :=
  {| clientWidth := $wd; clientHeight := $ht; rect_width := $wd;
     rect_height := $ht; canvases := [] |}.

Definition pin_at (name : string) (g : option (Vector3 num))
    : ApiModel3DPin num :=
  {| id := name; model_id := "m1"; geometry := g; label := None;
     pin_color := None; order_index := 0 |}.

(** A pin in front of the default camera, a pin behind it, and a record
    without position. *)
Definition pin_front : ApiModel3DPin num := pin_at "front" (Some (vec3 $0 $0 (- $5))).
Definition pin_behind : ApiModel3DPin num := pin_at "behind" (Some (vec3 $0 $0 $5)).
Definition pin_bare : ApiModel3DPin num := pin_at "bare" None.

(** A loaded asset: a group holding one mesh. *)
Definition asset : Object3D num :=
  Obj Group origin unit_scale
      [ Obj (Mesh (BufferGeometry "body")
                  (MaterialArray
                     [ {| name := "skin"; color := 0xffffff; roughness := $1;
                          metalness := $0; transparent := false; opacity := $1;
                          clearcoat := $0 |} ]))
            origin unit_scale [] ].

(** A mounted viewer on an 800x600 surface, after its scene effect ran
    without a URL and with the given pins. *)
Definition viewer (pins : list (ApiModel3DPin num)) : World num :=
  world_of (sceneEffect None (syncPins pins (mount (surface 800 600)))).

(** The same with a URL: the load is in flight. *)
Definition viewer_loading (pins : list (ApiModel3DPin num)) : World num :=
  world_of
    (sceneEffect (Some "model.glb"%string) (syncPins pins (mount (surface 800 600)))).

(** The first session of a world (an empty one if there is none). *)
Definition first_session (w : World num) : Session num :=
  nth 0 (sessions w)
      {| scene := Obj Group origin unit_scale [];
         camera := newPerspectiveCamera $45 $1 (decimal 1 2) $200;
         controls := newOrbitControls;
         renderer := {| width := $0; height := $0 |};
         observing := false; listening := false |}.

(** The scenario of a surface that collapses and comes back: a viewer with
    one pin on 800x600, resized to 0x0, one frame later, resized to 400x300,
    one frame later. *)
Definition collapsed : World num :=
  resizeHost $0 $0 $0 $0 (viewer [pin_front]).

Definition collapsed_frame : World num := world_of (runFrame 1 collapsed).

Definition restored : World num :=
  resizeHost $400 $300 $400 $300 collapsed_frame.

Definition restored_frame : World num := world_of (runFrame 2 restored).

(** A pass over one pin, after which the pin list grows by a record
    without position and a well-formed one. *)
Definition one_projected : World num :=
  world_of (projectPins (syncPins [pin_front] (viewer []))).

Definition grown : World num :=
  syncPins [pin_front; pin_bare; pin_behind] one_projected.

End Samples.

(** A pin whose position has an infinite coordinate, as a response with a
    number beyond the range of doubles decodes. *)
Definition pin_far : ApiModel3DPin float :=
  pin_at "far" (Some (vec3 0%float 0%float PrimFloat.neg_infinity)).

(** * Properties *)

(** ** Lists, sessions and exceptions *)

Section StoreFacts.
Context {A : Type}.

Lemma nth_error_update_nth (n : nat) (f : A -> A) (l : list A) :
  nth_error (update_nth n f l) n = option_map f (nth_error l n).
Proof.
  revert n; induction l as [|a l IH]; intros [|n]; simpl; auto.
Qed.

Lemma nth_error_update_nth_other (n m : nat) (f : A -> A) (l : list A) :
  n <> m -> nth_error (update_nth n f l) m = nth_error l m.
Proof.
  revert n m; induction l as [|a l IH]; intros [|n] [|m] Hnm; simpl; auto;
    congruence.
Qed.

Lemma length_update_nth (n : nat) (f : A -> A) (l : list A) :
  List.length (update_nth n f l) = List.length l.
Proof.
  revert n; induction l as [|a l IH]; intros [|n]; simpl; auto.
Qed.

End StoreFacts.

(** A relation between two lists can be weakened element by element, using
    that the left element is in the left list. *)
Lemma Forall2_weaken {A B : Type} (R R' : A -> B -> Prop) (l : list A)
    (l' : list B) :
  (forall a b, In a l -> R a b -> R' a b) -> Forall2 R l l' -> Forall2 R' l l'.
Proof.
  intros HR Hall. induction Hall as [|a b l l' Hab Hall IH]; constructor.
  - apply HR; [left; reflexivity | exact Hab].
  - apply IH. intros a' b' Hin. apply HR. right; exact Hin.
Qed.

Section ResultFacts.
Context {A B : Type}.

Lemma Ok_inj (a a' : A) : Ok a = Ok a' -> a = a'.
Proof. intros Heq. injection Heq as Heq. exact Heq. Qed.

(** A callback that never throws on the elements of the list maps the
    whole list, element by element and in order. *)
Lemma mapM_Ok (f : A -> result B) (g : A -> B) (l : list A) :
  (forall a, In a l -> f a = Ok (g a)) -> mapM f l = Ok (map g l).
Proof.
  induction l as [|a l IH]; intros Hf; simpl; [reflexivity|].
  rewrite (Hf a (or_introl eq_refl)); simpl.
  rewrite IH by (intros a' Ha'; apply Hf; right; exact Ha').
  reflexivity.
Qed.

(** One element on which the callback throws aborts the map, if every
    exception the callback raises is the same. *)
Lemma mapM_Throw (f : A -> result B) (e : string) (l : list A) :
  (forall a b, f a = Throw b -> b = e) ->
  (exists a, In a l /\ f a = Throw e) -> mapM f l = Throw e.
Proof.
  intros Hone; induction l as [|a l IH]; intros (a0 & Hin & Ha0).
  - destruct Hin.
  - simpl. destruct (f a) as [b|e'] eqn:Hfa; simpl.
    + destruct Hin as [->|Hin]; [congruence|].
      rewrite IH by (exists a0; auto). reflexivity.
    + f_equal. eapply Hone; eassumption.
Qed.

End ResultFacts.

Section SessionFacts.
Context {num : Type} `{ThreeJS num}.

Lemma session_update_session (sid : nat) (f : Session num -> Session num)
    (w : World num) :
  session sid (update_session sid f w) = option_map f (session sid w).
Proof. apply nth_error_update_nth. Qed.

Lemma session_update_session_other (sid k : nat)
    (f : Session num -> Session num) (w : World num) :
  sid <> k -> session k (update_session sid f w) = session k w.
Proof. intros; apply nth_error_update_nth_other; assumption. Qed.

(** What [projectPin] returns for a placed pin. *)
Lemma projectPin_placed camera rect p :
  placed p ->
  projectPin camera rect p =
  Ok {| pin := p;
        x := ((vx (ndc camera p) * decimal 5 1 + decimal 5 1) * rect_width rect)%js;
        y := ((- vy (ndc camera p) * decimal 5 1 + decimal 5 1)
              * rect_height rect)%js;
        visible := (vz (ndc camera p) <? $1)%js |}.
Proof.
  unfold placed, projectPin, ndc, position_of.
  destruct (geometry p) as [[gx gy gz]|]; [reflexivity | congruence].
Qed.

Lemma projectPin_Throw camera rect p e :
  projectPin camera rect p = Throw e -> e = TypeError.
Proof.
  unfold projectPin. destruct (geometry p); [discriminate | congruence].
Qed.

Lemma current_camera_session (w : World num) sid s :
  cameraRef w = Some sid -> session sid w = Some s ->
  current_camera w = Some (camera s).
Proof. unfold current_camera; intros -> ->; reflexivity. Qed.

(** With a camera and a mounted container, and every pin placed, the pass
    stores one projected pin for each pin, in order. *)
Lemma projectPins_placed (w : World num) sid s :
  cameraRef w = Some sid -> session sid w = Some s -> containerRef w = true ->
  Forall placed (pinsRef w) ->
  exists ps,
    projectPins w = Normal (set_projected ps w) /\
    Forall2 (fun p q => projectPin (camera s) (host w) p = Ok q) (pinsRef w) ps.
Proof.
  intros Hc Hs Hm Hp. unfold projectPins.
  rewrite (current_camera_session _ Hc Hs), Hm.
  destruct (pinsRef w) as [|p0 ps0] eqn:Hpins.
  { exists []; split; [reflexivity | constructor]. }
  rewrite <- Hpins in *. clear Hpins p0 ps0.
  induction Hp as [|p ps Hp Hps IH].
  - exists []; split; [reflexivity | constructor].
  - destruct IH as (qs & Hqs & Hall).
    destruct (mapM (projectPin (camera s) (host w)) ps) as [qs'|] eqn:Hmap;
      [|discriminate].
    injection Hqs as Hqs.
    simpl. rewrite (projectPin_placed _ _ Hp), Hmap. simpl.
    eexists; split; [reflexivity|].
    constructor; [apply projectPin_placed, Hp|].
    assert (qs' = qs) as ->; [|exact Hall].
    change qs' with (projected (set_projected qs' w)).
    rewrite Hqs; reflexivity.
Qed.

End SessionFacts.

(** ** Pin projection *)

Lemma Qltb_true (a b : Q) : Qltb a b = true <-> a < b.
Proof. unfold Qltb, Qlt. apply Z.ltb_lt. Qed.

Lemma Qltb_false (a b : Q) : Qltb a b = false <-> b <= a.
Proof. unfold Qltb, Qle. apply Z.ltb_ge. Qed.

(** What one projected pin holds, in exact arithmetic. *)
Lemma projectPin_reading (T : ThreeJS Q) (camera : PerspectiveCamera Q)
    (rect : Container Q) (p : ApiModel3DPin Q) (q : Projected2DPin Q) :
  projectPin camera rect p = Ok q ->
  pin q = p /\
  x q == (vx (ndc camera p) * 0.5 + 0.5) * rect_width rect /\
  y q == (- vy (ndc camera p) * 0.5 + 0.5) * rect_height rect /\
  (visible q = false <-> 1 <= vz (ndc camera p)).
Proof.
  intros Hq.
  assert (Hp : placed p).
  { unfold placed. unfold projectPin in Hq.
    destruct (geometry p); [discriminate | discriminate Hq]. }
  rewrite (projectPin_placed _ _ Hp) in Hq.
  apply Ok_inj in Hq. subst q.
  cbn [pin x y visible].
  split; [reflexivity|]. split; [reflexivity|]. split; [reflexivity|].
  split.
  - intros Hv. apply Qltb_false in Hv. exact Hv.
  - intros Hd. apply Qltb_false. exact Hd.
Qed.

(** *** Comparisons and NaN on doubles *)

Lemma SFcompare_swap (a b : spec_float) :
  SFcompare b a = option_map CompOpp (SFcompare a b).
Proof.
  destruct a as [sa|sa| |sa ma ea], b as [sb|sb| |sb mb eb]; cbn;
    try reflexivity;
    try (destruct sa; reflexivity); try (destruct sb; reflexivity);
    try (destruct sa, sb; reflexivity).
  destruct sa, sb; cbn; try reflexivity;
    rewrite (Z.compare_antisym ea eb); destruct (ea ?= eb)%Z; cbn;
    try reflexivity; rewrite (Pos.compare_cont_antisym ma mb Eq);
    reflexivity.
Qed.

Lemma SFcompare_None (a b : spec_float) :
  SFcompare a b = None -> a = S754_nan \/ b = S754_nan.
Proof.
  destruct a as [sa|sa| |sa ma ea], b as [sb|sb| |sb mb eb]; cbn; intros Hc;
    try discriminate; auto.
Qed.

Lemma SFcompare_refl (a : spec_float) :
  a <> S754_nan -> SFcompare a a = Some Eq.
Proof.
  destruct a as [sa|sa| |sa ma ea]; cbn; intros Ha.
  - reflexivity.
  - destruct sa; reflexivity.
  - congruence.
  - destruct sa; rewrite Z.compare_refl, Pos.compare_cont_refl; reflexivity.
Qed.

(** [isNaN] is the class of the specification's NaN. *)
Lemma is_nan_Prim2SF (d : float) :
  PrimFloat.is_nan d = true <-> Prim2SF d = S754_nan.
Proof.
  unfold PrimFloat.is_nan. rewrite eqb_spec. unfold SFeqb. split.
  - intros Hn. destruct (SFcompare (Prim2SF d) (Prim2SF d)) as [c|] eqn:Hc.
    + assert (Hd : Prim2SF d <> S754_nan).
      { intros E. rewrite E in Hc. discriminate. }
      rewrite (SFcompare_refl Hd) in Hc. injection Hc as <-. discriminate.
    + apply SFcompare_None in Hc. destruct Hc; assumption.
  - intros E. rewrite E. reflexivity.
Qed.

(** What a failed comparison [d < c] means on doubles, for a bound [c] that
    is a number: [d] is at least [c], or [d] is NaN. *)
Lemma ltb_false_reading (d c : float) :
  PrimFloat.is_nan c = false ->
  (PrimFloat.ltb d c = false
   <-> PrimFloat.leb c d = true \/ PrimFloat.is_nan d = true).
Proof.
  intros Hnum.
  assert (Hc : Prim2SF c <> S754_nan).
  { intros E. apply is_nan_Prim2SF in E. congruence. }
  rewrite ltb_spec, leb_spec, is_nan_Prim2SF. unfold SFltb, SFleb.
  rewrite (SFcompare_swap (Prim2SF d) (Prim2SF c)).
  destruct (SFcompare (Prim2SF d) (Prim2SF c)) as [[| |]|] eqn:Hcmp; cbn.
  - split; [left; reflexivity | reflexivity].
  - split; [discriminate|]. intros [Hle|Hn]; [discriminate|].
    rewrite Hn in Hcmp. discriminate.
  - split; [left; reflexivity | reflexivity].
  - split; [|reflexivity]. intros _. right.
    destruct (SFcompare_None _ _ Hcmp) as [Hd|Hd]; [exact Hd | contradiction].
Qed.

(** Subtracting NaN gives NaN. *)
Lemma sub_nan (a : float) : PrimFloat.sub a PrimFloat.nan = PrimFloat.nan.
Proof.
  apply Prim2SF_inj. rewrite sub_spec.
  change (Prim2SF PrimFloat.nan) with S754_nan.
  destruct (Prim2SF a) as [sa|sa| |sa ma ea]; reflexivity.
Qed.

(** What one projected pin holds, for any arithmetic: the coordinates and
    the flag written out on the position of the pin. *)
Lemma projectPin_written {num : Type} `{ThreeJS num}
    (camera : PerspectiveCamera num) (rect : Container num)
    (p : ApiModel3DPin num) (q : Projected2DPin num) :
  projectPin camera rect p = Ok q ->
  pin q = p /\
  exists g,
    geometry p = Some g /\
    x q = ((vx (device_coordinates camera g) * decimal 5 1 + decimal 5 1)
           * rect_width rect)%js /\
    y q = ((- vy (device_coordinates camera g) * decimal 5 1 + decimal 5 1)
           * rect_height rect)%js /\
    visible q = (vz (device_coordinates camera g) <? $1)%js.
Proof.
  unfold projectPin. destruct (geometry p) as [g|] eqn:Hg; [|discriminate].
  intros Hq. apply Ok_inj in Hq. subst q. cbn [pin x y visible].
  split; [reflexivity|]. exists g.
  split; [reflexivity|]. split; [reflexivity|]. split; reflexivity.
Qed.

(** C1, as the code has it.  In a projection pass that has a camera and a
    mounted host and whose pins all have a position, every pin is taken to
    normalized device coordinates by the inverse world matrix and the
    projection matrix of the current camera, it is stored with
    [x = (ndc_x * 0.5 + 0.5) * width] and [y = (-ndc_y * 0.5 + 0.5) * height]
    of the host's bounding rectangle, and its flag is the result of the
    comparison [depth < 1].  On doubles the flag is therefore false exactly
    when the depth is at least 1 or is NaN; in exact arithmetic, exactly
    when the depth is at least 1. *)
Theorem projectPins_screen_coordinates :
  (forall (num : Type) (N : Number num) (T : ThreeJS num) (w : World num)
          (sid : nat) (s : Session num),
      cameraRef w = Some sid -> session sid w = Some s ->
      containerRef w = true -> Forall placed (pinsRef w) ->
      exists ps,
        projectPins w = Normal (set_projected ps w) /\
        Forall2
          (fun p q =>
             pin q = p /\
             exists g,
               geometry p = Some g /\
               x q = ((vx (device_coordinates (camera s) g) * decimal 5 1
                       + decimal 5 1) * rect_width (host w))%js /\
               y q = ((- vy (device_coordinates (camera s) g) * decimal 5 1
                       + decimal 5 1) * rect_height (host w))%js /\
               visible q = (vz (device_coordinates (camera s) g) <? $1)%js)
          (pinsRef w) ps) /\
  (forall depth : float,
      (depth <? $1)%js = false
      <-> PrimFloat.leb 1 depth = true \/ PrimFloat.is_nan depth = true) /\
  (forall depth : Q, (depth <? $1)%js = false <-> 1 <= depth).
Proof.
  split; [|split].
  - intros num N T w sid s Hc Hs Hm Hp.
    destruct (projectPins_placed _ Hc Hs Hm Hp) as (ps & Hrun & Hall).
    exists ps; split; [exact Hrun|].
    eapply Forall2_weaken; [|exact Hall].
    intros p q _ Hq. apply projectPin_written. exact Hq.
  - intros depth. apply ltb_false_reading. reflexivity.
  - intros depth. apply Qltb_false.
Qed.

Lemma projectPins_screen_coordinates_witness :
  exists ps,
    projectPins (viewer (num:=float) [pin_front; pin_behind])
    = Normal (set_projected ps (viewer [pin_front; pin_behind])) /\
    Forall2
      (fun p q =>
         pin q = p /\
         exists g,
           geometry p = Some g /\
           x q = ((vx (device_coordinates
                         (camera (first_session (viewer [pin_front; pin_behind]))) g)
                   * 0.5 + 0.5) * 800)%float /\
           y q = ((- vy (device_coordinates
                           (camera (first_session (viewer [pin_front; pin_behind]))) g)
                   * 0.5 + 0.5) * 600)%float /\
           visible q
           = (vz (device_coordinates
                    (camera (first_session (viewer [pin_front; pin_behind]))) g)
              <? 1)%float)
      [pin_front; pin_behind] ps.
Proof.
  assert (Hs : session 0 (viewer (num:=float) [pin_front; pin_behind])
               = Some (first_session (viewer [pin_front; pin_behind])))
    by (vm_compute; reflexivity).
  assert (Hc : cameraRef (viewer (num:=float) [pin_front; pin_behind]) = Some 0%nat)
    by (vm_compute; reflexivity).
  assert (Hm : containerRef (viewer (num:=float) [pin_front; pin_behind]) = true)
    by (vm_compute; reflexivity).
  assert (Hpins : pinsRef (viewer (num:=float) [pin_front; pin_behind])
                  = [pin_front; pin_behind]) by (vm_compute; reflexivity).
  assert (Hw : rect_width (host (viewer (num:=float) [pin_front; pin_behind]))
               = 800%float) by (vm_compute; reflexivity).
  assert (Hh : rect_height (host (viewer (num:=float) [pin_front; pin_behind]))
               = 600%float) by (vm_compute; reflexivity).
  assert (Hp : Forall placed (pinsRef (viewer (num:=float) [pin_front; pin_behind]))).
  { rewrite Hpins. repeat constructor; discriminate. }
  destruct (proj1 projectPins_screen_coordinates float _ Still _ 0%nat _
              Hc Hs Hm Hp) as (ps & Hrun & Hall).
  rewrite Hpins, Hw, Hh in Hall.
  exists ps. split; [exact Hrun | exact Hall].
Defined.

(** C1 as stated fails on the doubles the code computes with: the projected
    depth of a pin whose position has an infinite coordinate is NaN; the pin
    is marked invisible, and its depth is not at least 1. *)
Lemma nan_depth_invisible :
  projectPins (syncPins [pin_far] (viewer (num:=float) []))
  = Normal
      (set_projected
         [ {| pin := pin_far; x := PrimFloat.nan; y := PrimFloat.nan;
              visible := false |} ]
         (syncPins [pin_far] (viewer []))) /\
  PrimFloat.leb 1
    (vz (device_coordinates (camera (first_session (viewer (num:=float) [])))
                            (vec3 0%float 0%float PrimFloat.neg_infinity)))
  = false /\
  PrimFloat.is_nan
    (vz (device_coordinates (camera (first_session (viewer (num:=float) [])))
                            (vec3 0%float 0%float PrimFloat.neg_infinity)))
  = true.
Proof. split; [|split]; vm_compute; reflexivity. Qed.

(** The depth [Vector3.project] computes through a perspective matrix. *)
Lemma depth_makePerspective {num : Type} `{Number num}
    (l r t b n f : num) (v : Vector3 num) :
  vz (applyMatrix4 v (makePerspective l r t b n f))
  = (($0 * vx v + $0 * vy v + (- (f + n)) / (f - n) * vz v
      + (- $2) * f * n / (f - n))
     * ($1 / ($0 * vx v + $0 * vy v + (- $1) * vz v + $0)))%js.
Proof. reflexivity. Qed.

(** With near plane 0.01 and far plane 200, a point with positive
    camera-space z is projected to a depth of at least 1. *)
Lemma depth_behind (T : ThreeJS Q) (camera : PerspectiveCamera Q)
    (p : ApiModel3DPin Q) :
  fixed_frustum camera -> behind camera p -> 1 <= vz (ndc camera p).
Proof.
  intros (Hn & Hf & Hm) Hb.
  unfold behind in Hb. apply Qltb_true in Hb.
  unfold ndc, project. rewrite Hm.
  unfold updateProjectionMatrix.
  change (projectionMatrix (set_projectionMatrix ?m _)) with m.
  rewrite depth_makePerspective, Hn, Hf.
  set (v := applyMatrix4 (position_of p) (matrixWorldInverse camera)) in *.
  change (0 < vz v) in Hb.
  set (z := vz v) in *. set (a := vx v). set (b := vy v).
  unfold decimal; cbn [nadd nsub nmul ndiv nopp of_Z Exact].
  change (inject_Z (10 ^ Z.of_nat 2)) with (inject_Z 100).
  assert (Hz : ~ z == 0) by lra.
  assert (Hi : 0 < / z) by (apply Qinv_lt_0_compat; exact Hb).
  assert (E : (inject_Z 0 * a + inject_Z 0 * b
               + - (inject_Z 200 + inject_Z 1 / inject_Z 100)
                 / (inject_Z 200 - inject_Z 1 / inject_Z 100) * z
               + - inject_Z 2 * inject_Z 200 * (inject_Z 1 / inject_Z 100)
                 / (inject_Z 200 - inject_Z 1 / inject_Z 100))
              * (inject_Z 1
                 / (inject_Z 0 * a + inject_Z 0 * b + - inject_Z 1 * z + inject_Z 0))
              == (20001 # 19999) + (400 # 19999) * / z).
  { unfold inject_Z. field. exact Hz. }
  rewrite E. lra.
Qed.

(** C2. With the perspective camera of the scene effect (near plane 0.01,
    far plane 200), the projection pass marks every pin that lies behind the
    camera as not visible. *)
Theorem behind_camera_invisible
    (T : ThreeJS Q) (w : World Q) (sid : nat) (s : Session Q) :
  cameraRef w = Some sid -> session sid w = Some s -> containerRef w = true ->
  Forall placed (pinsRef w) ->
  fixed_frustum (camera s) ->
  exists ps,
    projectPins w = Normal (set_projected ps w) /\
    Forall2
      (fun p q => pin q = p /\ (behind (camera s) p -> visible q = false))
      (pinsRef w) ps.
Proof.
  intros Hc Hs Hm Hp Hfr.
  destruct (projectPins_placed _ Hc Hs Hm Hp) as (ps & Hrun & Hall).
  exists ps; split; [exact Hrun|].
  eapply Forall2_weaken; [|exact Hall].
  intros p q _ Hq.
  destruct (projectPin_reading T _ _ _ Hq) as (Hpin & _ & _ & Hvis).
  split; [exact Hpin|].
  intros Hb. apply Hvis. apply (@depth_behind T); assumption.
Qed.

Lemma behind_camera_invisible_witness :
  exists s ps,
    session 0 (viewer (num:=Q) [pin_front; pin_behind]) = Some s /\
    fixed_frustum (camera s) /\
    behind (camera s) pin_behind /\
    projectPins (viewer [pin_front; pin_behind])
    = Normal (set_projected ps (viewer [pin_front; pin_behind])) /\
    Forall2
      (fun p q => pin q = p /\ (behind (camera s) p -> visible q = false))
      [pin_front; pin_behind] ps.
Proof.
  eexists.
  assert (Hfr : fixed_frustum
                  (camera (nth 0 (sessions (viewer (num:=Q) [pin_front; pin_behind]))
                               (Build_Session (Obj Group origin origin []) 
                                  (newPerspectiveCamera 0 0 0 0) newOrbitControls
                                  (Build_WebGLRenderer 0 0) false false)))).
  { repeat split; vm_compute; reflexivity. }
  destruct (@behind_camera_invisible Still
              (viewer [pin_front; pin_behind]) 0 _ eq_refl eq_refl eq_refl)
    as (ps & Hrun & Hall).
  - repeat constructor; discriminate.
  - exact Hfr.
  - exists ps. split; [reflexivity|]. split; [exact Hfr|].
    split; [vm_compute; reflexivity|]. split; [exact Hrun | exact Hall].
Defined.

(** ** Count and identity of the projected pins *)

(** C3, as the code has it.  Not every pass stores a list that matches the
    pins.  With no pins the pass stores the empty list and raises nothing,
    whatever the state; without a camera or without a mounted host it
    stores the empty list whatever the pins; with a camera, a mounted host
    and a position on every pin it stores one projected pin per pin, for the
    same pins in the same order. *)
Theorem projected_pins_match
    {num : Type} `{ThreeJS num} :
  (forall w : World num,
      pinsRef w = [] -> projectPins w = Normal (set_projected [] w)) /\
  (forall w : World num,
      cameraRef w = None \/ containerRef w = false ->
      projectPins w = Normal (set_projected [] w)) /\
  (forall (w : World num) (sid : nat) (s : Session num),
      cameraRef w = Some sid -> session sid w = Some s ->
      containerRef w = true -> Forall placed (pinsRef w) ->
      exists ps,
        projectPins w = Normal (set_projected ps w) /\
        map (@pin num) ps = pinsRef w /\
        List.length ps = List.length (pinsRef w)).
Proof.
  split; [|split].
  - intros w Hnil. unfold projectPins. rewrite Hnil.
    destruct (current_camera w); [destruct (containerRef w)|]; reflexivity.
  - intros w [Hc|Hm]; unfold projectPins.
    + unfold current_camera. rewrite Hc. reflexivity.
    + rewrite Hm. destruct (current_camera w); reflexivity.
  - intros w sid s Hc Hs Hm Hp.
    destruct (projectPins_placed _ Hc Hs Hm Hp) as (ps & Hrun & Hall).
    exists ps; split; [exact Hrun|].
    assert (Hpins : map (@pin num) ps = pinsRef w).
    { rewrite Forall_forall in Hp.
      assert (Hall' : Forall2 (fun p q => pin q = p) (pinsRef w) ps).
      { eapply Forall2_weaken; [|exact Hall].
        intros p q Hin Hq. simpl in Hq.
        rewrite (projectPin_placed _ _ (Hp p Hin)) in Hq.
        injection Hq as <-. reflexivity. }
      clear - Hall'. induction Hall' as [|p q l l' Hpq _ IH]; simpl;
        [reflexivity | rewrite Hpq, IH; reflexivity]. }
    split; [exact Hpins|].
    rewrite <- Hpins. symmetry. apply length_map.
Qed.

Lemma projected_pins_match_witness :
  projectPins (viewer (num:=float) []) = Normal (set_projected [] (viewer [])) /\
  projectPins (syncPins [pin_front; pin_behind] (mount (surface (num:=float) 800 600)))
  = Normal (set_projected []
              (syncPins [pin_front; pin_behind] (mount (surface 800 600)))) /\
  exists ps,
    projectPins (viewer (num:=float) [pin_front; pin_behind])
    = Normal (set_projected ps (viewer [pin_front; pin_behind])) /\
    map (@pin float) ps = [pin_front; pin_behind] /\
    List.length ps = 2%nat.
Proof.
  split; [|split].
  - apply (proj1 (@projected_pins_match float _ Still)). reflexivity.
  - apply (proj1 (proj2 (@projected_pins_match float _ Still))).
    left. reflexivity.
  - eapply (proj2 (proj2 (@projected_pins_match float _ Still))
              (viewer [pin_front; pin_behind]) 0%nat); try reflexivity.
    repeat constructor; discriminate.
Defined.

(** C3 as stated fails.  A pass that meets a record without position raises
    and stores nothing, so the list of an earlier pass stays: three pins,
    one projected pin.  And a pass without a camera stores the empty list
    for two pins. *)
Lemma projected_pins_mismatch :
  List.length (projected (one_projected (num:=float))) = 1%nat /\
  projectPins (grown (num:=float)) = Abrupt TypeError grown /\
  List.length (pinsRef (world_of (projectPins (grown (num:=float))))) = 3%nat /\
  List.length (projected (world_of (projectPins (grown (num:=float))))) = 1%nat /\
  projectPins (syncPins [pin_front; pin_behind] (mount (surface (num:=float) 800 600)))
  = Normal (set_projected []
              (syncPins [pin_front; pin_behind] (mount (surface 800 600)))).
Proof. repeat (split; [vm_compute; reflexivity|]); vm_compute; reflexivity. Qed.

(** ** Pins without a position *)

(** C7, as the code has it.  With a camera and a mounted host, a pin list
    that holds a record without position makes the projection pass raise a
    [TypeError]: the record is not skipped, and no projected list is stored
    for the pass. *)
Theorem projectPins_unplaced_throws
    {num : Type} `{ThreeJS num} (w : World num) (sid : nat) (s : Session num) :
  cameraRef w = Some sid -> session sid w = Some s -> containerRef w = true ->
  (exists p, In p (pinsRef w) /\ geometry p = None) ->
  projectPins w = Abrupt TypeError w.
Proof.
  intros Hc Hs Hm (p & Hin & Hg). unfold projectPins.
  rewrite (current_camera_session _ Hc Hs), Hm.
  destruct (pinsRef w) as [|p0 ps0] eqn:Hpins; [destruct Hin|].
  rewrite (@mapM_Throw _ _ (projectPin (camera s) (host w)) TypeError).
  - reflexivity.
  - intros a b. apply projectPin_Throw.
  - exists p; split; [exact Hin|]. unfold projectPin. rewrite Hg. reflexivity.
Qed.

Lemma projectPins_unplaced_throws_witness :
  projectPins (syncPins [pin_front; pin_bare; pin_behind] (viewer (num:=float) []))
  = Abrupt TypeError (syncPins [pin_front; pin_bare; pin_behind] (viewer [])).
Proof.
  eapply (@projectPins_unplaced_throws float _ Still _ 0%nat); try reflexivity.
  exists pin_bare. split; [right; left; reflexivity | reflexivity].
Defined.

(** C7 as stated fails: one record without position among well-formed pins
    and the pass raises, so that no pin of the batch is projected. *)
Lemma unplaced_pin_aborts_batch :
  projectPins (syncPins [pin_front; pin_bare; pin_behind] (viewer (num:=float) []))
  = Abrupt TypeError (syncPins [pin_front; pin_bare; pin_behind] (viewer [])) /\
  projectPins (syncPins [pin_front; pin_behind] (viewer (num:=float) []))
  = Normal (set_projected
          [ {| pin := pin_front; x := 400%float; y := 300%float; visible := true |};
            {| pin := pin_behind; x := 400%float; y := 300%float; visible := false |} ]
          (syncPins [pin_front; pin_behind] (viewer []))).
Proof. split; vm_compute; reflexivity. Qed.

(** ** Camera buttons *)


Section Buttons.
Context {num : Type} `{ThreeJS num}.






End Buttons.



(** ** Teardown *)

Section Teardown.
Context {num : Type} `{ThreeJS num}.

Lemma cleanup_log (w : World num) (sid : nat) (s : Session num) :
  session sid w = Some s ->
  log (cleanup sid w)
  = log w ++ teardown_calls (animFrameRef w) sid
    ++ (if existsb (Nat.eqb sid) (canvases (host w)) then [RemoveChild sid] else [])
    ++ flat_map (dispose_object sid) (traverse (scene s)).
Proof.
  intros Hs. unfold cleanup. rewrite Hs. cbn.
  destruct (existsb (Nat.eqb sid) (canvases (host w))); cbn;
    rewrite <- !app_assoc; reflexivity.
Qed.

Lemma cleanup_session (w : World num) (sid : nat) (s : Session num) :
  session sid w = Some s ->
  session sid (cleanup sid w) = Some (set_listening false (set_observing false s)).
Proof.
  intros Hs. unfold cleanup. rewrite Hs. cbn.
  assert (Hgoal : session sid
            (update_session sid (set_listening false)
               (update_session sid (set_observing false) w))
          = Some (set_listening false (set_observing false s))).
  { rewrite !session_update_session, Hs. reflexivity. }
  destruct (existsb (Nat.eqb sid) (canvases (host w))); exact Hgoal.
Qed.

Lemma cleanup_animFrameRef (w : World num) (sid : nat) :
  animFrameRef (cleanup sid w) = animFrameRef w.
Proof.
  unfold cleanup. destruct (session sid w); [|reflexivity]. cbn.
  destruct (existsb (Nat.eqb sid) (canvases (host w))); reflexivity.
Qed.

Lemma cleanup_frames (w : World num) (sid : nat) (s : Session num) :
  session sid w = Some s ->
  frames (cleanup sid w)
  = filter (fun f => negb (Nat.eqb (fst f) (animFrameRef w))) (frames w).
Proof.
  intros Hs. unfold cleanup. rewrite Hs. cbn.
  destruct (existsb (Nat.eqb sid) (canvases (host w))); reflexivity.
Qed.

Lemma existsb_filter_out (sid : nat) (l : list nat) :
  existsb (Nat.eqb sid) (filter (fun c => negb (Nat.eqb c sid)) l) = false.
Proof.
  induction l as [|c l IH]; simpl; [reflexivity|].
  destruct (Nat.eqb c sid) eqn:Hc; simpl; [exact IH|].
  rewrite Nat.eqb_sym, Hc. exact IH.
Qed.

(** After [cleanup] the canvas of the session is not in the host. *)
Lemma cleanup_detached (w : World num) (sid : nat) (s : Session num) :
  session sid w = Some s ->
  existsb (Nat.eqb sid) (canvases (host (cleanup sid w))) = false.
Proof.
  intros Hs. unfold cleanup. rewrite Hs. cbn.
  destruct (existsb (Nat.eqb sid) (canvases (host w))) eqn:Hin; cbn.
  - apply existsb_filter_out.
  - exact Hin.
Qed.

Lemma cleanup_host_detached (w : World num) (sid : nat) :
  existsb (Nat.eqb sid) (canvases (host w)) = false ->
  host (cleanup sid w) = host w.
Proof.
  intros Hout. unfold cleanup. destruct (session sid w); [|reflexivity]. cbn.
  rewrite Hout. reflexivity.
Qed.

End Teardown.

(** X2 (the subject of C6, as the code has it).  A second [cleanup] of the same session is
    total (it raises nothing) and detaches no canvas, the containment test
    having failed; every other call of the first run is made again: the
    frame handle is cancelled, the observer disconnected, the listener
    removed, and [dispose] called on the controls, the renderer and the
    geometry and material(s) of every mesh of the scene. *)
Theorem cleanup_twice
    {num : Type} `{ThreeJS num} (w : World num) (sid : nat) (s : Session num) :
  session sid w = Some s ->
  log (cleanup sid (cleanup sid w))
  = log (cleanup sid w)
    ++ teardown_calls (animFrameRef w) sid
    ++ flat_map (dispose_object sid) (traverse (scene s))
  /\ host (cleanup sid (cleanup sid w)) = host (cleanup sid w).
Proof.
  intros Hs.
  assert (Hs1 : session sid (cleanup sid w)
                = Some (set_listening false (set_observing false s)))
    by (apply cleanup_session; exact Hs).
  assert (Hout : existsb (Nat.eqb sid) (canvases (host (cleanup sid w))) = false)
    by (eapply cleanup_detached; exact Hs).
  split.
  - erewrite cleanup_log by exact Hs1.
    rewrite Hout, cleanup_animFrameRef. reflexivity.
  - apply cleanup_host_detached, Hout.
Qed.

Lemma cleanup_twice_witness :
  log (cleanup 0 (cleanup 0 (viewer (num:=float) [])))
  = log (cleanup 0 (viewer (num:=float) []))
    ++ teardown_calls 1 0
    ++ flat_map (dispose_object 0)
         (traverse (fold_left (@add float) (lights ++ fallbackMeshes)
                              (Obj (Scene 0x0a0a12) origin unit_scale [])))
  /\ host (cleanup 0 (cleanup 0 (viewer (num:=float) [])))
     = host (cleanup 0 (viewer (num:=float) [])).
Proof.
  exact (@cleanup_twice float _ Still (viewer []) 0%nat _ eq_refl).
Defined.

(** The dispose calls of two teardowns, counted: the second teardown disposes the renderer, the
    controls and the five meshes of the placeholder again. *)
Lemma second_cleanup_disposes_again :
  count (is_renderer_dispose 0) (viewer (num:=float) []) = 0%nat /\
  count (is_renderer_dispose 0) (cleanup 0 (viewer (num:=float) [])) = 1%nat /\
  count (is_renderer_dispose 0) (cleanup 0 (cleanup 0 (viewer (num:=float) []))) = 2%nat /\
  count (is_dispose 0) (cleanup 0 (viewer (num:=float) [])) = 12%nat /\
  count (is_dispose 0) (cleanup 0 (cleanup 0 (viewer (num:=float) []))) = 24%nat.
Proof. repeat (split; [vm_compute; reflexivity|]); vm_compute; reflexivity. Qed.

(** ** The animation loop and the loader callbacks *)

Section Loop.
Context {num : Type} `{ThreeJS num}.

Lemma scene_update_rig (s : Session num) : scene (update_rig s) = scene s.
Proof.
  unfold update_rig. destruct (OrbitControls_update (camera s) (controls s)).
  reflexivity.
Qed.

Lemma observing_update_rig (s : Session num) :
  observing (update_rig s) = observing s.
Proof.
  unfold update_rig. destruct (OrbitControls_update (camera s) (controls s)).
  reflexivity.
Qed.

Lemma animate_projectPins (sid : nat) (w : World num) :
  animate sid w = projectPins (before_projection sid w).
Proof. reflexivity. Qed.

(** A projection pass writes the projected pins and nothing else. *)
Lemma projectPins_world (w : World num) :
  exists ps, world_of (projectPins w) = set_projected ps w.
Proof.
  unfold projectPins.
  destruct (current_camera w); [destruct (containerRef w)|];
    try (exists []; reflexivity).
  destruct (pinsRef w) as [|pin0 pins0]; [exists []; reflexivity|].
  destruct (mapM _ _) as [qs|e].
  - exists qs; reflexivity.
  - exists (projected w). destruct w; reflexivity.
Qed.

Lemma session_set_projected (sid : nat) (ps : list (Projected2DPin num))
    (w : World num) :
  session sid (set_projected ps w) = session sid w.
Proof. reflexivity. Qed.

Lemma session_before_projection (sid : nat) (w : World num) (s : Session num) :
  session sid w = Some s ->
  session sid (before_projection sid w)
  = Some (set_camera (updateMatrixWorld (camera (update_rig s))) (update_rig s)).
Proof.
  intros Hs. unfold before_projection, render, controls_update.
  change (session sid (emit ?e ?w')) with (session sid w').
  rewrite !session_update_session.
  change (session sid (set_animFrameRef _ (set_nextFrame _ (set_frames _ w))))
    with (session sid w).
  rewrite Hs. reflexivity.
Qed.

End Loop.

Section Loader.
Context {num : Type} `{ThreeJS num}.

Lemma children_buildFallbackModel (root : Object3D num) :
  children_of (buildFallbackModel root) = children_of root ++ fallbackMeshes.
Proof.
  destruct root as [k p sc cs]. unfold buildFallbackModel, fallbackMeshes.
  simpl. rewrite <- !app_assoc. reflexivity.
Qed.

Lemma onError_session (sid : nat) (w : World num) (s : Session num) :
  session sid w = Some s ->
  session sid (onError sid w) = Some (set_scene (buildFallbackModel (scene s)) s).
Proof.
  intros Hs. unfold onError.
  change (session sid (set_isLoading _ ?w')) with (session sid w').
  rewrite session_update_session.
  change (session sid (set_loadError _ (emit _ w))) with (session sid w).
  rewrite Hs. reflexivity.
Qed.

Lemma onLoad_session (sid : nat) (model : Object3D num) (w : World num)
    (s : Session num) :
  session sid w = Some s ->
  session sid (onLoad sid model w)
  = Some (update_rig
            (set_camera (set_position (framing model) (camera s))
               (set_controls (set_target origin (controls s))
                  (set_scene (add (scene s) (fitted model)) s)))).
Proof.
  intros Hs. unfold onLoad, controls_update.
  change (session sid (set_isLoading _ ?w')) with (session sid w').
  rewrite !session_update_session, Hs. reflexivity.
Qed.

End Loader.

(** X3 (the subject of C9, as the code has it).  The cleanup of a session whose pending frame is
    the registered one leaves no frame callback scheduled, so that no tick
    follows, and disconnects the resize observer.  The completion of a load
    that was in flight is not a no-op: the success callback still adds the
    fitted model to the scene of the torn-down session, moves its camera and
    target, runs the controls' update and clears the loading flag; it
    schedules no frame and logs no call. *)
Theorem load_after_cleanup
    {num : Type} `{ThreeJS num} (w : World num) (sid : nat) (s : Session num)
    (model : Object3D num) :
  session sid w = Some s -> loop_registered w ->
  frames (cleanup sid w) = [] /\
  (forall handle, runFrame handle (cleanup sid w) = Normal (cleanup sid w)) /\
  (exists s1, session sid (cleanup sid w) = Some s1 /\ observing s1 = false) /\
  (exists s2,
      session sid (onLoad sid model (cleanup sid w)) = Some s2 /\
      scene s2 = add (scene s) (fitted model) /\
      observing s2 = false) /\
  isLoading (onLoad sid model (cleanup sid w)) = false /\
  frames (onLoad sid model (cleanup sid w)) = [] /\
  log (onLoad sid model (cleanup sid w)) = log (cleanup sid w).
Proof.
  intros Hs Hloop.
  assert (Hfr : frames (cleanup sid w) = []).
  { erewrite cleanup_frames by exact Hs.
    unfold loop_registered in Hloop. induction (frames w) as [|f fs IH];
      [reflexivity|].
    simpl. rewrite (Hloop f (or_introl eq_refl)), Nat.eqb_refl. simpl.
    apply IH. intros f' Hf'. apply Hloop. right; exact Hf'. }
  assert (Hs1 : session sid (cleanup sid w)
                = Some (set_listening false (set_observing false s)))
    by (apply cleanup_session; exact Hs).
  split; [exact Hfr|].
  split; [intros handle; unfold runFrame; rewrite Hfr; reflexivity|].
  split; [eexists; split; [exact Hs1 | reflexivity]|].
  split.
  - eexists. split; [apply onLoad_session; exact Hs1|].
    rewrite scene_update_rig, observing_update_rig. split; reflexivity.
  - split; [reflexivity|]. split; [exact Hfr | reflexivity].
Qed.

Lemma load_after_cleanup_witness :
  loop_registered (viewer_loading (num:=float) []) /\
  frames (cleanup 0 (viewer_loading (num:=float) [])) = [] /\
  isLoading (cleanup 0 (viewer_loading (num:=float) [])) = true /\
  isLoading (onLoad 0 asset (cleanup 0 (viewer_loading (num:=float) []))) = false.
Proof.
  assert (Hfr0 : frames (viewer_loading (num:=float) []) = [(1, 0)]%nat
                 /\ animFrameRef (viewer_loading (num:=float) []) = 1%nat)
    by (vm_compute; split; reflexivity).
  assert (Hloop : loop_registered (viewer_loading (num:=float) [])).
  { intros f Hin. rewrite (proj1 Hfr0) in Hin. rewrite (proj2 Hfr0).
    destruct Hin as [<-|[]]. reflexivity. }
  assert (Hs : exists s, session 0 (viewer_loading (num:=float) []) = Some s)
    by (vm_compute; eexists; reflexivity).
  destruct Hs as (s & Hs).
  destruct (@load_after_cleanup float _ Still (viewer_loading []) 0%nat s asset
              Hs Hloop) as (Hfr & _ & _ & _ & Hload & _).
  split; [exact Hloop|]. split; [exact Hfr|].
  split; [vm_compute; reflexivity | exact Hload].
Defined.

(** A late load, evaluated: a load that completes after the teardown changes the
    scene of the torn-down session, its camera, and the loading flag. *)
Lemma late_load_mutates :
  option_map (fun s => List.length (children_of (scene s)))
             (session 0 (cleanup 0 (viewer_loading (num:=float) []))) = Some 5%nat /\
  option_map (fun s => List.length (children_of (scene s)))
             (session 0 (onLoad 0 asset (cleanup 0 (viewer_loading (num:=float) []))))
  = Some 6%nat /\
  option_map (fun s => position (camera s))
             (session 0 (cleanup 0 (viewer_loading (num:=float) [])))
  = Some (vec3 3 2 4)%float /\
  option_map (fun s => position (camera s))
             (session 0 (onLoad 0 asset (cleanup 0 (viewer_loading (num:=float) []))))
  = Some (vec3 4.5 3 4.5)%float /\
  isLoading (cleanup 0 (viewer_loading (num:=float) [])) = true /\
  isLoading (onLoad 0 asset (cleanup 0 (viewer_loading (num:=float) []))) = false.
Proof. repeat (split; [vm_compute; reflexivity|]); vm_compute; reflexivity. Qed.

(** ** The scene effect *)

Section Effect.
Context {num : Type} `{ThreeJS num}.

Lemma children_fold_add (l : list (Object3D num)) (root : Object3D num) :
  children_of (fold_left (@add num) l root) = children_of root ++ l.
Proof.
  revert root. induction l as [|o l IH]; intros [k p sc cs]; simpl.
  - rewrite app_nil_r. reflexivity.
  - rewrite IH. simpl. rewrite <- app_assoc. reflexivity.
Qed.

Lemma nth_error_last {A : Type} (l : list A) (a : A) :
  nth_error (l ++ [a]) (List.length l) = Some a.
Proof. induction l as [|b l IH]; simpl; [reflexivity | exact IH]. Qed.

(** The state in which the scene effect starts its loop: the new session is
    the last of the store, the refs point to it, and the model is either
    requested from the loader or replaced by the placeholder. *)
Lemma sceneEffect_stage (fileUrl : option string) (w : World num) :
  containerRef w = true ->
  exists w0 s0,
    sceneEffect fileUrl w
    = match animate (List.length (sessions w)) w0 with
      | Normal w' =>
          Normal (update_session (List.length (sessions w))
                    (fun s => set_listening true (set_observing true s)) w')
      | Abrupt e w' => Abrupt e w'
      end /\
    session (List.length (sessions w)) w0 = Some s0 /\
    cameraRef w0 = Some (List.length (sessions w)) /\
    containerRef w0 = true /\ pinsRef w0 = pinsRef w /\ loadError w0 = None /\
    match truthy fileUrl with
    | Some url =>
        log w0 = log w ++ [LoaderLoad (List.length (sessions w)) url] /\
        isLoading w0 = true /\ children_of (scene s0) = lights
    | None =>
        log w0 = log w /\ isLoading w0 = false /\
        children_of (scene s0) = lights ++ fallbackMeshes
    end.
Proof.
  intros Hm. unfold sceneEffect. rewrite Hm. cbv zeta. cbn [negb].
  destruct (truthy fileUrl) as [url|].
  - eexists. eexists. split; [reflexivity|].
    split; [unfold session; cbn; apply nth_error_last|].
    cbn. repeat split; try assumption.
  - eexists. eexists. split; [reflexivity|].
    split.
    { change (session ?k (set_isLoading _ ?w')) with (session k w').
      rewrite session_update_session. unfold session. cbn.
      rewrite nth_error_last. reflexivity. }
    split; [reflexivity|]. split; [exact Hm|]. split; [reflexivity|].
    split; [reflexivity|]. split; [reflexivity|]. split; reflexivity.
Qed.

End Effect.

(** X4 (the subject of C10).  The error callback of the loader returns
    normally: it adds the meshes of the procedural placeholder to the scene
    of its session, lowers the loading flag and sets a non-empty error
    message.  Without a URL (or with the empty string) the scene effect
    builds the placeholder itself and never calls the loader: whether its
    first tick raises or not, it leaves the lights, the grid and the
    placeholder in the scene, the loading flag down, no error message, and
    one render as its only call; and it ends normally when every pin has a
    position. *)
Theorem load_failure_recovers {num : Type} `{ThreeJS num} :
  (forall (w : World num) (sid : nat) (s : Session num),
      session sid w = Some s ->
      exists s',
        session sid (onError sid w) = Some s' /\
        children_of (scene s') = children_of (scene s) ++ fallbackMeshes /\
        isLoading (onError sid w) = false /\
        loadError (onError sid w) = Some "Error al cargar el modelo 3D"%string /\
        "Error al cargar el modelo 3D"%string <> ""%string) /\
  (forall (w : World num) (fileUrl : option string),
      containerRef w = true -> truthy fileUrl = None ->
      (exists s',
          session (List.length (sessions w)) (world_of (sceneEffect fileUrl w))
          = Some s' /\
          children_of (scene s') = lights ++ fallbackMeshes) /\
      isLoading (world_of (sceneEffect fileUrl w)) = false /\
      loadError (world_of (sceneEffect fileUrl w)) = None /\
      log (world_of (sceneEffect fileUrl w))
      = log w ++ [Render (List.length (sessions w))] /\
      (Forall placed (pinsRef w) -> exists w', sceneEffect fileUrl w = Normal w')).
Proof.
  split.
  - intros w sid s Hs. eexists. split; [apply onError_session; exact Hs|].
    split; [apply children_buildFallbackModel|].
    split; [reflexivity|]. split; [reflexivity | discriminate].
  - intros w fileUrl Hm Hurl.
    destruct (sceneEffect_stage fileUrl w Hm)
      as (w0 & s0 & Hrun & Hs0 & Hc0 & Hm0 & Hp0 & He0 & Hcase).
    rewrite Hurl in Hcase. destruct Hcase as (Hlog & Hload & Hch).
    set (sid := List.length (sessions w)) in *.
    assert (Hs3 : session sid (before_projection sid w0)
                  = Some (set_camera (updateMatrixWorld (camera (update_rig s0)))
                                     (update_rig s0)))
      by (apply session_before_projection; exact Hs0).
    assert (Hlog3 : log (before_projection sid w0) = log w ++ [Render sid]).
    { change (log (before_projection sid w0)) with (log w0 ++ [Render sid]).
      rewrite Hlog. reflexivity. }
    destruct (projectPins_world (before_projection sid w0)) as (ps & Hw).
    rewrite animate_projectPins in Hrun. rewrite Hrun.
    destruct (projectPins (before_projection sid w0)) as [w1|e w1] eqn:Hpp;
      cbn [world_of] in Hw |- *; subst w1.
    + split.
      { eexists. split.
        - rewrite session_update_session, session_set_projected, Hs3.
          reflexivity.
        - cbn [scene set_listening set_observing set_camera].
          rewrite scene_update_rig. exact Hch. }
      split; [exact Hload|]. split; [exact He0|]. split; [exact Hlog3|].
      intros _. eexists. reflexivity.
    + split.
      { eexists. split; [rewrite session_set_projected; exact Hs3|].
        cbn [scene set_camera]. rewrite scene_update_rig. exact Hch. }
      split; [exact Hload|]. split; [exact He0|]. split; [exact Hlog3|].
      intros Hp.
      assert (Hpl : Forall placed (pinsRef (before_projection sid w0))).
      { change (pinsRef (before_projection sid w0)) with (pinsRef w0).
        rewrite Hp0. exact Hp. }
      destruct (projectPins_placed (before_projection sid w0) Hc0 Hs3 Hm0 Hpl)
        as (qs & Hqs & _).
      rewrite Hqs in Hpp. discriminate.
Qed.

Lemma load_failure_recovers_witness :
  (exists s',
      session 0 (onError 0 (viewer_loading (num:=float) [])) = Some s' /\
      List.length (children_of (scene s')) = 10%nat /\
      isLoading (onError 0 (viewer_loading (num:=float) [])) = false /\
      loadError (onError 0 (viewer_loading (num:=float) []))
      = Some "Error al cargar el modelo 3D"%string) /\
  (exists s',
      session 0 (world_of (sceneEffect (Some ""%string)
                             (mount (surface (num:=float) 800 600)))) = Some s' /\
      children_of (scene s') = lights ++ fallbackMeshes) /\
  isLoading (world_of (sceneEffect (Some ""%string)
                         (mount (surface (num:=float) 800 600)))) = false /\
  log (world_of (sceneEffect (Some ""%string)
                   (mount (surface (num:=float) 800 600)))) = [Render 0] /\
  (exists w',
      sceneEffect (Some ""%string) (mount (surface (num:=float) 800 600))
      = Normal w').
Proof.
  split.
  - assert (Hs : exists s,
               session 0 (viewer_loading (num:=float) []) = Some s /\
               List.length (children_of (scene s)) = 5%nat)
      by (vm_compute; eexists; split; reflexivity).
    destruct Hs as (s & Hs & Hfive).
    destruct (proj1 (@load_failure_recovers float _ Still)
                (viewer_loading []) 0%nat s Hs)
      as (s' & Hs' & Hch & Hload & Herr & _).
    exists s'. split; [exact Hs'|].
    split; [rewrite Hch, length_app, Hfive; reflexivity|].
    split; [exact Hload | exact Herr].
  - destruct (proj2 (@load_failure_recovers float _ Still)
                (mount (surface 800 600)) (Some ""%string) eq_refl eq_refl)
      as (Hscene & Hload & _ & Hlog & Hnormal).
    split; [exact Hscene|]. split; [exact Hload|]. split; [exact Hlog|].
    apply Hnormal. constructor.
Defined.

(** ** Fitting the loaded model *)

(** X5 (the subject of C4).  On the doubles the code computes with, a
    successful load adds the model to the scene with the uniform scale
    [3 / maxDim], where [maxDim] is the largest dimension of its bounding
    box, and with its position moved back by the centre of the box times
    that scale; it puts the target at the origin and the camera at
    [(1.5 m, m, 1.5 m)] for [m = maxDim * scale], calls the controls' update
    and lowers the loading flag.  For a box of size exactly (2,4,2) the
    scale is exactly 0.75 and that camera position (4.5, 3, 4.5).  Nothing
    guards the division: for an empty bounding box (a glTF without
    geometry) [maxDim] is 0, the scale is infinite, and the position of the
    model and that of the camera are NaN. *)
Theorem fit_loaded_model
    (T : ThreeJS float) (w : World float) (sid : nat) (s : Session float)
    (model : Object3D float) :
  session sid w = Some s ->
  session sid (onLoad sid model w)
  = Some (update_rig
            (set_camera (set_position (framing model) (camera s))
               (set_controls (set_target origin (controls s))
                  (set_scene (add (scene s) (fitted model)) s)))) /\
  isLoading (onLoad sid model w) = false /\
  kind_of (fitted model) = kind_of model /\
  children_of (fitted model) = children_of model /\
  scale_of (fitted model) = setScalar (3 / maxDim model)%float /\
  pos_of (fitted model)
  = subVector (pos_of model)
      (multiplyScalar (getCenter (setFromObject model)) (3 / maxDim model)%float) /\
  framing model
  = vec3 (maxDim model * (3 / maxDim model) * 1.5)%float
         (maxDim model * (3 / maxDim model))%float
         (maxDim model * (3 / maxDim model) * 1.5)%float /\
  (getSize (setFromObject model) = vec3 2%float 4%float 2%float ->
   scale_of (fitted model) = vec3 0.75%float 0.75%float 0.75%float /\
   framing model = vec3 4.5%float 3%float 4.5%float) /\
  (isEmpty (setFromObject model) = true ->
   maxDim model = 0%float /\
   scale_of (fitted model)
   = vec3 PrimFloat.infinity PrimFloat.infinity PrimFloat.infinity /\
   pos_of (fitted model) = vec3 PrimFloat.nan PrimFloat.nan PrimFloat.nan /\
   framing model = vec3 PrimFloat.nan PrimFloat.nan PrimFloat.nan).
Proof.
  intros Hs.
  split; [apply onLoad_session; exact Hs|].
  split; [reflexivity|]. split; [reflexivity|]. split; [reflexivity|].
  split; [reflexivity|]. split; [reflexivity|]. split; [reflexivity|].
  split.
  - intros Hsize.
    assert (Hmax : maxDim model = 4%float).
    { unfold maxDim. rewrite Hsize. vm_compute. reflexivity. }
    unfold fitted, framing. cbn [scale_of]. rewrite Hmax.
    split; vm_compute; reflexivity.
  - intros Hempty.
    assert (Hmax : maxDim model = 0%float).
    { unfold maxDim, getSize. rewrite Hempty. vm_compute. reflexivity. }
    split; [exact Hmax|].
    unfold fitted, framing. cbn [scale_of pos_of]. rewrite Hmax.
    unfold getCenter. rewrite Hempty.
    split; [vm_compute; reflexivity|]. split; [|vm_compute; reflexivity].
    assert (Hshift : multiplyScalar (num:=float) origin ($3 / 0%float)%js
                     = vec3 PrimFloat.nan PrimFloat.nan PrimFloat.nan)
      by (vm_compute; reflexivity).
    rewrite Hshift. unfold subVector. cbn [vx vy vz nsub Float64].
    rewrite !sub_nan. reflexivity.
Qed.

Lemma fit_loaded_model_witness :
  (session 0 (onLoad 0 asset (viewer_loading (num:=float) [])) <> None /\
   scale_of (fitted (num:=float) asset) = vec3 0.75%float 0.75%float 0.75%float /\
   framing (num:=float) asset = vec3 4.5%float 3%float 4.5%float) /\
  (session 0 (@onLoad float _ Hollow 0%nat asset (viewer_loading (num:=float) [])) <> None /\
   scale_of (@fitted float _ Hollow asset)
   = vec3 PrimFloat.infinity PrimFloat.infinity PrimFloat.infinity /\
   pos_of (@fitted float _ Hollow asset)
   = vec3 PrimFloat.nan PrimFloat.nan PrimFloat.nan /\
   @framing float _ Hollow asset = vec3 PrimFloat.nan PrimFloat.nan PrimFloat.nan).
Proof.
  assert (Hs : session 0 (viewer_loading (num:=float) [])
               = Some (first_session (viewer_loading [])))
    by (vm_compute; reflexivity).
  split.
  - destruct (@fit_loaded_model Still (viewer_loading []) 0%nat _ asset Hs)
      as (Hrun & _ & _ & _ & _ & _ & _ & Hcase & _).
    split; [rewrite Hrun; discriminate|].
    apply Hcase. vm_compute. reflexivity.
  - destruct (@fit_loaded_model Hollow (viewer_loading []) 0%nat _ asset Hs)
      as (Hrun & _ & _ & _ & _ & _ & _ & _ & Hcase).
    split; [rewrite Hrun; discriminate|].
    apply Hcase. vm_compute. reflexivity.
Defined.

(** ** Resizing *)

Section Resize.
Context {num : Type} `{ThreeJS num}.

Lemma handleResize_session (sid : nat) (w : World num) (s : Session num) :
  session sid w = Some s ->
  session sid (handleResize sid w)
  = Some (set_renderer
            {| width := clientWidth (host w); height := clientHeight (host w) |}
            (set_camera
               (updateProjectionMatrix
                  (set_aspect (clientWidth (host w) / clientHeight (host w))%js
                              (camera s)))
               s)).
Proof.
  intros Hs. unfold handleResize. rewrite session_update_session, Hs.
  reflexivity.
Qed.

Lemma count_emit (p : Event num -> bool) (e : Event num) (w : World num) :
  count p (emit e w) = (count p w + if p e then 1 else 0)%nat.
Proof.
  unfold count, emit. simpl. rewrite filter_app, length_app. simpl.
  destruct (p e); reflexivity.
Qed.

End Resize.

(** X6 (the subject of C8, as the code has it).  [handleResize] has no guard
    on the size: it assigns the quotient of the client width by the client
    height to the aspect ratio whatever the two are (on doubles the
    quotient by a zero height is NaN or infinite), recomputes the projection
    matrix from it and sizes the renderer.  No tick is skipped after it:
    whatever the size and the pins, the next tick requests and records its
    successor and renders once; and when every pin has a position it ends
    normally, with one projected pin per pin, computed with the camera as
    the tick left it and against the bounding rectangle of the host. *)
Theorem resize_then_tick
    {num : Type} `{ThreeJS num} (w : World num) (sid : nat) (s : Session num) :
  session sid w = Some s ->
  session sid (handleResize sid w)
  = Some (set_renderer
            {| width := clientWidth (host w); height := clientHeight (host w) |}
            (set_camera
               (updateProjectionMatrix
                  (set_aspect (clientWidth (host w) / clientHeight (host w))%js
                              (camera s)))
               s)) /\
  count (is_render sid) (world_of (animate sid (handleResize sid w)))
  = S (count (is_render sid) w) /\
  In (nextFrame w, sid) (frames (world_of (animate sid (handleResize sid w)))) /\
  animFrameRef (world_of (animate sid (handleResize sid w))) = nextFrame w /\
  (cameraRef w = Some sid -> containerRef w = true ->
   Forall placed (pinsRef w) ->
   exists w2 s2,
     animate sid (handleResize sid w) = Normal w2 /\
     session sid w2 = Some s2 /\
     Forall2
       (fun p q =>
          pin q = p /\
          exists g,
            geometry p = Some g /\
            x q = ((vx (device_coordinates (camera s2) g) * decimal 5 1
                    + decimal 5 1) * rect_width (host w))%js /\
            y q = ((- vy (device_coordinates (camera s2) g) * decimal 5 1
                    + decimal 5 1) * rect_height (host w))%js)
       (pinsRef w) (projected w2)).
Proof.
  intros Hs.
  set (w1 := handleResize sid w).
  pose proof (handleResize_session sid w Hs) as Hs1. fold w1 in Hs1.
  pose proof (session_before_projection sid w1 Hs1) as Hs3.
  destruct (projectPins_world (before_projection sid w1)) as (ps0 & Hw).
  rewrite <- animate_projectPins in Hw.
  split; [exact Hs1|].
  split.
  { rewrite Hw. unfold count.
    change (log (set_projected ps0 (before_projection sid w1)))
      with (log w ++ [Render sid]).
    rewrite filter_app, length_app. cbn [filter is_render].
    rewrite Nat.eqb_refl. cbn [List.length]. apply Nat.add_1_r. }
  split.
  { rewrite Hw.
    change (frames (set_projected ps0 (before_projection sid w1)))
      with (frames w ++ [(nextFrame w, sid)]).
    apply in_or_app. right. left. reflexivity. }
  split; [rewrite Hw; reflexivity|].
  intros Hc Hm Hp.
  destruct (projectPins_placed (before_projection sid w1) Hc Hs3 Hm Hp)
    as (ps & Hrun & Hall).
  exists (set_projected ps (before_projection sid w1)). eexists.
  split; [rewrite animate_projectPins; exact Hrun|].
  split; [rewrite session_set_projected; exact Hs3|].
  eapply Forall2_weaken; [|exact Hall].
  intros p q _ Hq.
  destruct (projectPin_written _ _ _ Hq) as (Hpin & g & Hg & Hx & Hy & _).
  split; [exact Hpin|]. exists g.
  split; [exact Hg|]. split; [exact Hx | exact Hy].
Qed.

Lemma resize_then_tick_witness :
  option_map (fun s => PrimFloat.is_nan (aspect (camera s)))
             (session 0 (handleResize 0 (collapsed (num:=float))))
  = Some true /\
  count (is_render 0) (world_of (animate 0 (handleResize 0 (collapsed (num:=float)))))
  = 2%nat /\
  exists w2 s2,
    animate 0 (handleResize 0 (collapsed (num:=float))) = Normal w2 /\
    session 0 w2 = Some s2 /\
    Forall2
      (fun p q =>
         pin q = p /\
         exists g,
           geometry p = Some g /\
           x q = ((vx (device_coordinates (camera s2) g) * 0.5 + 0.5) * 0)%float /\
           y q = ((- vy (device_coordinates (camera s2) g) * 0.5 + 0.5) * 0)%float)
      [pin_front] (projected w2).
Proof.
  assert (Hs : session 0 (collapsed (num:=float))
               = Some (first_session collapsed)) by (vm_compute; reflexivity).
  assert (Hc : cameraRef (collapsed (num:=float)) = Some 0%nat)
    by (vm_compute; reflexivity).
  assert (Hm : containerRef (collapsed (num:=float)) = true)
    by (vm_compute; reflexivity).
  assert (Hpins : pinsRef (collapsed (num:=float)) = [pin_front])
    by (vm_compute; reflexivity).
  assert (Hw : rect_width (host (collapsed (num:=float))) = 0%float)
    by (vm_compute; reflexivity).
  assert (Hh : rect_height (host (collapsed (num:=float))) = 0%float)
    by (vm_compute; reflexivity).
  assert (Hone : count (is_render 0) (collapsed (num:=float)) = 1%nat)
    by (vm_compute; reflexivity).
  assert (Hp : Forall placed (pinsRef (collapsed (num:=float)))).
  { rewrite Hpins. repeat constructor. discriminate. }
  destruct (@resize_then_tick float _ Still collapsed 0%nat _ Hs)
    as (Hs1 & Hcount & _ & _ & Hrun).
  split; [rewrite Hs1; vm_compute; reflexivity|].
  split; [rewrite Hcount, Hone; reflexivity|].
  destruct (Hrun Hc Hm Hp) as (w2 & s2 & Hw2 & Hs2 & Hall).
  rewrite Hpins, Hw, Hh in Hall.
  exists w2, s2. split; [exact Hw2|]. split; [exact Hs2 | exact Hall].
Defined.

(** The collapse scenario on doubles: after the resize to 0x0 the aspect ratio
    is NaN (the quotient 0/0 was computed), and the frame that follows still
    renders; after the resize to 400x300 the next frame puts the pin at the
    centre of the new surface. *)
Lemma collapse_and_restore :
  option_map (fun s => PrimFloat.is_nan (aspect (camera s)))
             (session 0 (collapsed (num:=float))) = Some true /\
  count (is_render 0) (collapsed (num:=float)) = 1%nat /\
  runFrame 1 (collapsed (num:=float)) = Normal collapsed_frame /\
  count (is_render 0) (collapsed_frame (num:=float)) = 2%nat /\
  projected (restored_frame (num:=float))
  = [ {| pin := pin_front; x := 200%float; y := 150%float; visible := true |} ].
Proof. repeat (split; [vm_compute; reflexivity|]); vm_compute; reflexivity. Qed.

(** ** The frame loop *)

Section FrameLoop.
Context {num : Type} `{ThreeJS num}.

Lemma frames_before_projection (sid : nat) (w : World num) :
  frames (before_projection sid w) = frames w ++ [(nextFrame w, sid)]
  /\ animFrameRef (before_projection sid w) = nextFrame w
  /\ nextFrame (before_projection sid w) = S (nextFrame w)
  /\ log (before_projection sid w) = log w ++ [Render sid].
Proof.
  split; [reflexivity|]. split; [reflexivity|]. split; reflexivity.
Qed.

Lemma animate_world (sid : nat) (w : World num) :
  exists ps, world_of (animate sid w) = set_projected ps (before_projection sid w).
Proof. rewrite animate_projectPins. apply projectPins_world. Qed.

(** The registered frame, alone in the queue, is the tick of its session. *)
Lemma runFrame_registered (sid : nat) (w : World num) :
  frames w = [(animFrameRef w, sid)] ->
  runFrame (animFrameRef w) w = animate sid (set_frames [] w).
Proof.
  intros Hfr. unfold runFrame. rewrite Hfr. cbn [find filter fst].
  rewrite Nat.eqb_refl. reflexivity.
Qed.

Lemma count_app_render (sid : nat) (l : list (Event num)) :
  List.length (filter (is_render sid) (l ++ [Render sid]))
  = S (List.length (filter (is_render sid) l)).
Proof.
  rewrite filter_app, length_app. cbn [filter is_render].
  rewrite Nat.eqb_refl. cbn [List.length]. apply Nat.add_1_r.
Qed.

Lemma listening_update_rig (s : Session num) :
  listening (update_rig s) = listening s.
Proof.
  unfold update_rig. destruct (OrbitControls_update (camera s) (controls s)).
  reflexivity.
Qed.

(** A pin without position makes the tick raise, from the state in which
    it called [projectPins]. *)
Lemma animate_unplaced (w : World num) (sid : nat) (s : Session num) :
  session sid w = Some s -> cameraRef w = Some sid -> containerRef w = true ->
  (exists p, In p (pinsRef w) /\ geometry p = None) ->
  animate sid w = Abrupt TypeError (before_projection sid w).
Proof.
  intros Hs Hc Hm Hbare.
  pose proof (session_before_projection sid w Hs) as Hs3.
  rewrite animate_projectPins.
  unfold projectPins.
  rewrite (current_camera_session (before_projection sid w) Hc Hs3).
  change (containerRef (before_projection sid w)) with (containerRef w).
  change (pinsRef (before_projection sid w)) with (pinsRef w).
  change (host (before_projection sid w)) with (host w).
  rewrite Hm.
  destruct Hbare as (p & Hin & Hg).
  destruct (pinsRef w) as [|p0 ps0] eqn:Hpins; [destruct Hin|].
  rewrite (@mapM_Throw _ _ (projectPin _ (host w)) TypeError).
  - reflexivity.
  - intros a b. apply projectPin_Throw.
  - exists p; split; [exact Hin|]. unfold projectPin. rewrite Hg. reflexivity.
Qed.

Lemma fields_set_projected (ps : list (Projected2DPin num)) (w : World num) :
  frames (set_projected ps w) = frames w /\
  animFrameRef (set_projected ps w) = animFrameRef w /\
  log (set_projected ps w) = log w /\
  host (set_projected ps w) = host w.
Proof. split; [reflexivity|]. split; [reflexivity|]. split; reflexivity. Qed.

Lemma fields_set_frames (l : list (nat * nat)) (w : World num) :
  frames (set_frames l w) = l /\
  nextFrame (set_frames l w) = nextFrame w /\
  log (set_frames l w) = log w /\
  host (set_frames l w) = host w.
Proof. split; [reflexivity|]. split; [reflexivity|]. split; reflexivity. Qed.

(** The state a tick leaves, whether its projection pass raised or not. *)
Lemma tick_state (sid : nat) (w : World num) :
  exists w',
    world_of (animate sid (set_frames [] w)) = w' /\
    frames w' = [(nextFrame w, sid)] /\ animFrameRef w' = nextFrame w /\
    log w' = log w ++ [Render sid].
Proof.
  destruct (animate_world sid (set_frames [] w)) as (ps & Hw).
  eexists. split; [exact Hw|].
  destruct (frames_before_projection sid (set_frames [] w))
    as (Hfr & Href & _ & Hlog).
  destruct (fields_set_projected ps (before_projection sid (set_frames [] w)))
    as (F1 & F2 & F3 & _).
  destruct (fields_set_frames [] w) as (G1 & G2 & G3 & _).
  rewrite F1, F2, F3, Hfr, Href, Hlog, G1, G2, G3.
  split; [reflexivity|]. split; reflexivity.
Qed.

End FrameLoop.

(** X7. The loop keeps exactly one frame request in flight and [animFrameRef]
    holds its handle: from such a state, however many frames the browser
    runs, the queue holds the registered request of the session and nothing
    else, and each frame has rendered once - also when a projection pass
    raised on the way. *)
Theorem loop_keeps_one_frame
    {num : Type} `{ThreeJS num} (n : nat) (w : World num) (sid : nat) :
  frames w = [(animFrameRef w, sid)] ->
  frames (ticks n w) = [(animFrameRef (ticks n w), sid)] /\
  count (is_render sid) (ticks n w) = (count (is_render sid) w + n)%nat.
Proof.
  revert w. induction n as [|n IH]; intros w Hfr.
  - split; [exact Hfr | symmetry; apply Nat.add_0_r].
  - cbn [ticks]. rewrite (runFrame_registered w Hfr).
    destruct (tick_state sid w) as (w' & Hw' & Hfr' & Href & Hlog).
    rewrite Hw'.
    destruct (IH w') as (Hq & Hcount); [rewrite Hfr', Href; reflexivity|].
    split; [exact Hq|].
    rewrite Hcount. unfold count. rewrite Hlog, count_app_render.
    rewrite Nat.add_succ_r. reflexivity.
Qed.

Lemma loop_keeps_one_frame_witness :
  frames (ticks 3 (viewer (num:=float) [pin_front; pin_bare]))
  = [(animFrameRef (ticks 3 (viewer (num:=float) [pin_front; pin_bare])), 0%nat)]
  /\ count (is_render 0) (ticks 3 (viewer (num:=float) [pin_front; pin_bare]))
     = 4%nat.
Proof.
  assert (Hfr : frames (viewer (num:=float) [pin_front; pin_bare])
                = [(animFrameRef (viewer (num:=float) [pin_front; pin_bare]), 0%nat)])
    by (vm_compute; reflexivity).
  assert (Hone : count (is_render 0) (viewer (num:=float) [pin_front; pin_bare])
                 = 1%nat) by (vm_compute; reflexivity).
  destruct (@loop_keeps_one_frame float _ Still 3 _ 0%nat Hfr) as (Hq & Hcount).
  split; [exact Hq|]. rewrite Hcount, Hone. reflexivity.
Defined.

(** X8. A tick whose projection pass meets a pin without position raises a
    [TypeError] after the fact: the next frame is requested and recorded,
    the controls are updated and the scene is rendered before the exception
    leaves [animate]. *)
Theorem tick_with_unplaced_pin
    {num : Type} `{ThreeJS num} (w : World num) (sid : nat) (s : Session num) :
  session sid w = Some s -> cameraRef w = Some sid -> containerRef w = true ->
  (exists p, In p (pinsRef w) /\ geometry p = None) ->
  animate sid w = Abrupt TypeError (before_projection sid w) /\
  In (nextFrame w, sid) (frames (before_projection sid w)) /\
  animFrameRef (before_projection sid w) = nextFrame w /\
  log (before_projection sid w) = log w ++ [Render sid] /\
  projected (before_projection sid w) = projected w.
Proof.
  intros Hs Hc Hm Hbare.
  split; [apply (animate_unplaced w Hs Hc Hm Hbare)|].
  destruct (frames_before_projection sid w) as (Hfr & Href & _ & Hlog).
  split; [rewrite Hfr; apply in_or_app; right; left; reflexivity|].
  split; [exact Href|]. split; [exact Hlog | reflexivity].
Qed.

Lemma tick_with_unplaced_pin_witness :
  animate 0 (syncPins [pin_front; pin_bare] (viewer (num:=float) []))
  = Abrupt TypeError
      (before_projection 0 (syncPins [pin_front; pin_bare] (viewer (num:=float) [])))
  /\ In (2%nat, 0%nat)
        (frames (before_projection 0
                   (syncPins [pin_front; pin_bare] (viewer (num:=float) [])))).
Proof.
  assert (Hs : exists s,
             session 0 (syncPins [pin_front; pin_bare] (viewer (num:=float) []))
             = Some s) by (vm_compute; eexists; reflexivity).
  destruct Hs as (s & Hs).
  assert (Hc : cameraRef (syncPins [pin_front; pin_bare] (viewer (num:=float) []))
               = Some 0%nat) by (vm_compute; reflexivity).
  assert (Hm : containerRef (syncPins [pin_front; pin_bare] (viewer (num:=float) []))
               = true) by (vm_compute; reflexivity).
  assert (Hn : nextFrame (syncPins [pin_front; pin_bare] (viewer (num:=float) []))
               = 2%nat) by (vm_compute; reflexivity).
  destruct (@tick_with_unplaced_pin float _ Still _ 0%nat s Hs Hc Hm)
    as (Hrun & Hin & _).
  - exists pin_bare. split; [right; left; reflexivity | reflexivity].
  - split; [exact Hrun|]. rewrite Hn in Hin. exact Hin.
Defined.

(** A projection pass writes the list of projected pins and nothing else:
    it ends normally with the state changed in [projected] only, or raises
    with the state as it was. *)
Theorem projectPins_writes_projected_only
    {num : Type} `{ThreeJS num} (w : World num) :
  (exists ps, projectPins w = Normal (set_projected ps w)) \/
  (exists e, projectPins w = Abrupt e w).
Proof.
  unfold projectPins.
  destruct (current_camera w) as [cam|]; [destruct (containerRef w)|];
    try (left; exists []; reflexivity).
  destruct (pinsRef w) as [|pin0 pins0]; [left; exists []; reflexivity|].
  destruct (mapM _ _) as [qs|e].
  - left. exists qs. reflexivity.
  - right. exists e. reflexivity.
Qed.

(** ** Setting up and reloading *)

Section Setup.
Context {num : Type} `{ThreeJS num}.

Lemma nth_error_before_last {A : Type} (l : list A) (a : A) (k : nat) :
  (k < List.length l)%nat -> nth_error (l ++ [a]) k = nth_error l k.
Proof. intros Hk. apply nth_error_app1. exact Hk. Qed.

Lemma session_bound (k : nat) (w : World num) (s : Session num) :
  session k w = Some s -> (k < List.length (sessions w))%nat.
Proof.
  intros Hs. apply nth_error_Some. unfold session in Hs. rewrite Hs. discriminate.
Qed.

(** The platform side of the state in which the scene effect starts its
    loop: the canvas is appended, no frame is requested yet, the observer
    and the listener are not attached, and the older sessions are as they
    were. *)
Lemma sceneEffect_setup (fileUrl : option string) (w : World num) :
  containerRef w = true ->
  exists w0 s0,
    sceneEffect fileUrl w
    = match animate (List.length (sessions w)) w0 with
      | Normal w' =>
          Normal (update_session (List.length (sessions w))
                    (fun s => set_listening true (set_observing true s)) w')
      | Abrupt e w' => Abrupt e w'
      end /\
    session (List.length (sessions w)) w0 = Some s0 /\
    observing s0 = false /\ listening s0 = false /\
    cameraRef w0 = Some (List.length (sessions w)) /\
    containerRef w0 = true /\ pinsRef w0 = pinsRef w /\
    canvases (host w0) = canvases (host w) ++ [List.length (sessions w)] /\
    frames w0 = frames w /\ nextFrame w0 = nextFrame w /\
    (forall k, (k < List.length (sessions w))%nat -> session k w0 = session k w).
Proof.
  intros Hm. unfold sceneEffect. rewrite Hm. cbv zeta. cbn [negb].
  destruct (truthy fileUrl) as [url|].
  - eexists. eexists. split; [reflexivity|].
    split; [unfold session; cbn; apply nth_error_last|].
    split; [reflexivity|]. split; [reflexivity|]. split; [reflexivity|].
    split; [exact Hm|]. split; [reflexivity|]. split; [reflexivity|].
    split; [reflexivity|]. split; [reflexivity|].
    intros k Hk. unfold session. cbn. apply nth_error_before_last. exact Hk.
  - eexists. eexists. split; [reflexivity|].
    split.
    { change (session ?k (set_isLoading _ ?w')) with (session k w').
      rewrite session_update_session. unfold session. cbn.
      rewrite nth_error_last. reflexivity. }
    split; [reflexivity|]. split; [reflexivity|]. split; [reflexivity|].
    split; [exact Hm|]. split; [reflexivity|]. split; [reflexivity|].
    split; [reflexivity|]. split; [reflexivity|].
    intros k Hk.
    change (session ?j (set_isLoading _ ?w')) with (session j w').
    rewrite session_update_session_other
      by (intros Heq; rewrite <- Heq in Hk; exact (Nat.lt_irrefl _ Hk)).
    unfold session. cbn. apply nth_error_before_last. exact Hk.
Qed.

Lemma cleanup_frame (w : World num) (sid : nat) :
  containerRef (cleanup sid w) = containerRef w /\
  pinsRef (cleanup sid w) = pinsRef w /\
  nextFrame (cleanup sid w) = nextFrame w /\
  cameraRef (cleanup sid w) = cameraRef w /\
  List.length (sessions (cleanup sid w)) = List.length (sessions w).
Proof.
  unfold cleanup. destruct (session sid w); [|repeat split]. cbn.
  destruct (existsb (Nat.eqb sid) (canvases (host w))); cbn;
    unfold update_session; cbn; rewrite !length_update_nth; repeat split.
Qed.

Lemma cleanup_canvases (w : World num) (sid : nat) (s : Session num) :
  session sid w = Some s ->
  canvases (host (cleanup sid w))
  = filter (fun c => negb (Nat.eqb c sid)) (canvases (host w)).
Proof.
  intros Hs. unfold cleanup. rewrite Hs. cbn.
  destruct (existsb (Nat.eqb sid) (canvases (host w))) eqn:Hin; cbn;
    [reflexivity|].
  symmetry. induction (canvases (host w)) as [|c cs IH]; [reflexivity|].
  cbn in Hin. apply orb_false_iff in Hin. destruct Hin as (Hc & Hcs).
  cbn. rewrite Nat.eqb_sym, Hc. cbn. rewrite (IH Hcs). reflexivity.
Qed.

Lemma cleanup_session_other (w : World num) (sid k : nat) :
  sid <> k -> session k (cleanup sid w) = session k w.
Proof.
  intros Hk. unfold cleanup. destruct (session sid w); [|reflexivity]. cbn.
  assert (Hgoal : session k
            (update_session sid (set_listening false)
               (update_session sid (set_observing false) w))
          = session k w).
  { rewrite !session_update_session_other by exact Hk. reflexivity. }
  destruct (existsb (Nat.eqb sid) (canvases (host w))); exact Hgoal.
Qed.

End Setup.

(** X9. When the scene effect runs while the pin list holds a record without
    position, it raises a [TypeError] from its first tick and leaves a
    half-built session behind: the canvas is in the host and a frame is
    requested, but the resize observer and the double-click listener were
    never attached (and no cleanup was returned). *)
Theorem effect_with_unplaced_pin
    {num : Type} `{ThreeJS num} (fileUrl : option string) (w : World num) :
  containerRef w = true ->
  (exists p, In p (pinsRef w) /\ geometry p = None) ->
  exists w' s',
    sceneEffect fileUrl w = Abrupt TypeError w' /\
    session (List.length (sessions w)) w' = Some s' /\
    observing s' = false /\ listening s' = false /\
    canvases (host w') = canvases (host w) ++ [List.length (sessions w)] /\
    frames w' = frames w ++ [(nextFrame w, List.length (sessions w))] /\
    animFrameRef w' = nextFrame w.
Proof.
  intros Hm Hbare.
  destruct (sceneEffect_setup fileUrl w Hm)
    as (w0 & s0 & Hrun & Hs0 & Hobs & Hlis & Hc0 & Hm0 & Hp0 & Hcv & Hfr & Hnx & _).
  set (sid := List.length (sessions w)) in *.
  rewrite <- Hp0 in Hbare.
  assert (Hrun' : animate sid w0 = Abrupt TypeError (before_projection sid w0))
    by (apply (animate_unplaced w0 Hs0 Hc0 Hm0 Hbare)).
  rewrite Hrun' in Hrun.
  exists (before_projection sid w0). eexists.
  split; [exact Hrun|].
  split; [apply session_before_projection; exact Hs0|].
  cbn [observing listening set_camera].
  rewrite observing_update_rig, listening_update_rig.
  split; [exact Hobs|]. split; [exact Hlis|].
  destruct (frames_before_projection sid w0) as (Hfr' & Href & _ & _).
  split; [exact Hcv|].
  split; [rewrite Hfr', Hfr, Hnx; reflexivity|].
  rewrite Href. exact Hnx.
Qed.

Lemma effect_with_unplaced_pin_witness :
  exists w' s',
    sceneEffect None (syncPins [pin_front; pin_bare] (mount (surface (num:=float) 800 600)))
    = Abrupt TypeError w' /\
    session 0 w' = Some s' /\ observing s' = false /\ listening s' = false /\
    canvases (host w') = [0%nat] /\ frames w' = [(1, 0)]%nat.
Proof.
  destruct (@effect_with_unplaced_pin float _ Still None
              (syncPins [pin_front; pin_bare] (mount (surface 800 600))) eq_refl)
    as (w' & s' & Hrun & Hs' & Hobs & Hlis & Hcv & Hfr & _).
  - exists pin_bare. split; [right; left; reflexivity | reflexivity].
  - exists w', s'. split; [exact Hrun|]. split; [exact Hs'|].
    split; [exact Hobs|]. split; [exact Hlis|]. split; [exact Hcv | exact Hfr].
Defined.

Section Reload.
Context {num : Type} `{ThreeJS num}.

Lemma fields_update_session (sid : nat) (f : Session num -> Session num)
    (w : World num) :
  host (update_session sid f w) = host w /\
  frames (update_session sid f w) = frames w /\
  animFrameRef (update_session sid f w) = animFrameRef w /\
  cameraRef (update_session sid f w) = cameraRef w.
Proof. split; [reflexivity|]. split; [reflexivity|]. split; reflexivity. Qed.

Lemma fields_before_projection (sid : nat) (w : World num) :
  host (before_projection sid w) = host w /\
  cameraRef (before_projection sid w) = cameraRef w.
Proof. split; reflexivity. Qed.

Lemma session_before_projection_other (sid k : nat) (w : World num) :
  sid <> k -> session k (before_projection sid w) = session k w.
Proof.
  intros Hk. unfold before_projection, render, controls_update.
  change (session k (emit ?e ?w')) with (session k w').
  rewrite !session_update_session_other by exact Hk.
  reflexivity.
Qed.

(** With the registered frame the only one pending, the cleanup empties the
    queue. *)
Lemma cleanup_frames_registered (w : World num) (sid : nat) (s : Session num) :
  session sid w = Some s -> loop_registered w -> frames (cleanup sid w) = [].
Proof.
  intros Hs Hloop. rewrite (cleanup_frames w sid Hs).
  unfold loop_registered in Hloop. induction (frames w) as [|f fs IH];
    [reflexivity|].
  simpl. rewrite (Hloop f (or_introl eq_refl)), Nat.eqb_refl. simpl.
  apply IH. intros f' Hf'. apply Hloop. right; exact Hf'.
Qed.

(** The state the scene effect leaves, whether its first tick raised or
    not, read on the fields the first tick and the attachment of the
    observer do not touch. *)
Lemma sceneEffect_world (fileUrl : option string) (w : World num) :
  containerRef w = true ->
  canvases (host (world_of (sceneEffect fileUrl w)))
  = canvases (host w) ++ [List.length (sessions w)] /\
  frames (world_of (sceneEffect fileUrl w))
  = frames w ++ [(nextFrame w, List.length (sessions w))] /\
  animFrameRef (world_of (sceneEffect fileUrl w)) = nextFrame w /\
  cameraRef (world_of (sceneEffect fileUrl w)) = Some (List.length (sessions w)) /\
  (forall k, (k < List.length (sessions w))%nat ->
             session k (world_of (sceneEffect fileUrl w)) = session k w).
Proof.
  intros Hm.
  destruct (sceneEffect_setup fileUrl w Hm)
    as (w0 & s0 & Hrun & Hs0 & _ & _ & Hc0 & _ & _ & Hcv & Hfr & Hnx & Hold).
  set (sid := List.length (sessions w)) in *.
  destruct (animate_world sid w0) as (ps & Hw).
  destruct (frames_before_projection sid w0) as (Bfr & Bref & _ & _).
  destruct (fields_before_projection sid w0) as (Bhost & Bcam).
  destruct (fields_set_projected ps (before_projection sid w0))
    as (F1 & F2 & _ & F4).
  assert (Hcam : cameraRef (set_projected ps (before_projection sid w0))
                 = cameraRef w0) by reflexivity.
  assert (Hother : forall k, (k < sid)%nat ->
            session k (set_projected ps (before_projection sid w0)) = session k w).
  { intros k Hk. rewrite session_set_projected.
    rewrite session_before_projection_other
      by (intros Heq; rewrite <- Heq in Hk; exact (Nat.lt_irrefl _ Hk)).
    apply Hold. exact Hk. }
  rewrite Hrun. destruct (animate sid w0) as [w1|e w1]; cbn [world_of] in *;
    subst w1.
  - destruct (fields_update_session sid
                (fun s => set_listening true (set_observing true s))
                (set_projected ps (before_projection sid w0)))
      as (U1 & U2 & U3 & U4).
    rewrite U1, U2, U3, U4, F1, F2, F4, Bfr, Bref, Bhost, Hcam, Hcv, Hfr, Hnx.
    repeat (split; [reflexivity || exact Hc0|]).
    intros k Hk.
    rewrite session_update_session_other
      by (intros Heq; rewrite <- Heq in Hk; exact (Nat.lt_irrefl _ Hk)).
    apply Hother. exact Hk.
  - rewrite F1, F2, F4, Bfr, Bref, Bhost, Hcam, Hcv, Hfr, Hnx.
    repeat (split; [reflexivity || exact Hc0|]).
    exact Hother.
Qed.

End Reload.

(** X10. Reloading keeps one canvas and one loop.  When React re-runs the scene
    effect for a session whose canvas is the only one in the host and whose
    frame request is the registered one, the host ends with the canvas of
    the new session alone, the queue with the frame request of the new
    session alone, recorded in [animFrameRef], the refs point to the new
    session, and the old session is left with its observer and listener
    off. *)
Theorem rerun_single_canvas
    {num : Type} `{ThreeJS num} (fileUrl : option string) (w : World num)
    (k : nat) (s : Session num) :
  session k w = Some s -> canvases (host w) = [k] -> loop_registered w ->
  containerRef w = true ->
  canvases (host (world_of (rerun fileUrl k w))) = [List.length (sessions w)] /\
  frames (world_of (rerun fileUrl k w))
  = [(animFrameRef (world_of (rerun fileUrl k w)), List.length (sessions w))] /\
  cameraRef (world_of (rerun fileUrl k w)) = Some (List.length (sessions w)) /\
  session k (world_of (rerun fileUrl k w))
  = Some (set_listening false (set_observing false s)).
Proof.
  intros Hs Hcv Hloop Hm. unfold rerun.
  destruct (cleanup_frame w k) as (Cm & _ & Cnx & _ & Clen).
  assert (Hm' : containerRef (cleanup k w) = true) by (rewrite Cm; exact Hm).
  destruct (sceneEffect_world fileUrl (cleanup k w) Hm')
    as (Ecv & Efr & Eref & Ecam & Eold).
  rewrite Clen in *.
  rewrite Ecv, Efr, Eref, Ecam.
  assert (Hfr0 : frames (cleanup k w) = [])
    by (apply cleanup_frames_registered with (s := s); assumption).
  rewrite (cleanup_canvases w k Hs), Hcv, Hfr0.
  cbn [filter]. rewrite Nat.eqb_refl. cbn [negb app].
  split; [reflexivity|]. split; [reflexivity|]. split; [reflexivity|].
  rewrite Eold by (apply (session_bound k w Hs)).
  apply cleanup_session. exact Hs.
Qed.

Lemma rerun_single_canvas_witness :
  canvases (host (world_of (rerun (Some "other.glb"%string) 0
                                  (viewer_loading (num:=float) [pin_front]))))
  = [1%nat] /\
  cameraRef (world_of (rerun (Some "other.glb"%string) 0
                             (viewer_loading (num:=float) [pin_front])))
  = Some 1%nat.
Proof.
  assert (Hs : exists s, session 0 (viewer_loading (num:=float) [pin_front]) = Some s)
    by (vm_compute; eexists; reflexivity).
  destruct Hs as (s & Hs).
  assert (Hcv : canvases (host (viewer_loading (num:=float) [pin_front])) = [0%nat])
    by (vm_compute; reflexivity).
  assert (Hfr0 : frames (viewer_loading (num:=float) [pin_front]) = [(1, 0)]%nat
                 /\ animFrameRef (viewer_loading (num:=float) [pin_front]) = 1%nat)
    by (vm_compute; split; reflexivity).
  assert (Hloop : loop_registered (viewer_loading (num:=float) [pin_front])).
  { intros f Hin. rewrite (proj1 Hfr0) in Hin. rewrite (proj2 Hfr0).
    destruct Hin as [<-|[]]. reflexivity. }
  assert (Hm : containerRef (viewer_loading (num:=float) [pin_front]) = true)
    by (vm_compute; reflexivity).
  assert (Hlen : List.length (sessions (viewer_loading (num:=float) [pin_front]))
                 = 1%nat) by (vm_compute; reflexivity).
  destruct (@rerun_single_canvas float _ Still (Some "other.glb"%string)
              (viewer_loading [pin_front]) 0%nat s Hs Hcv Hloop Hm)
    as (Hone & _ & Hcam & _).
  rewrite Hlen in Hone, Hcam. split; [exact Hone | exact Hcam].
Defined.

(** ** Resizing and the observers *)

Unset Implicit Arguments.

Section Observers.
Context {num : Type} `{ThreeJS num}.

Lemma handleResize_other (j sid : nat) (w : World num) :
  j <> sid -> session sid (handleResize j w) = session sid w.
Proof.
  intros Hj. unfold handleResize. apply session_update_session_other. exact Hj.
Qed.

Lemma host_handleResize (j : nat) (w : World num) :
  host (handleResize j w) = host w.
Proof. reflexivity. Qed.

(** One step of the notification of the observers leaves the host alone,
    and leaves a session alone if it is another one or is not observed. *)
Lemma notify_step (j sid : nat) (w : World num) (s : Session num) :
  session sid w = Some s -> (j <> sid \/ observing s = false) ->
  session sid
    (match session j w with
     | Some sj => if observing sj then handleResize j w else w
     | None => w
     end)
  = Some s.
Proof.
  intros Hs Hcase.
  destruct (Nat.eq_dec j sid) as [->|Hj].
  - destruct Hcase as [Hne|Hoff]; [congruence|].
    rewrite Hs, Hoff. exact Hs.
  - destruct (session j w) as [sj|]; [|exact Hs].
    destruct (observing sj); [|exact Hs].
    rewrite handleResize_other by exact Hj. exact Hs.
Qed.

Lemma notify_host (j : nat) (w : World num) :
  host (match session j w with
        | Some sj => if observing sj then handleResize j w else w
        | None => w
        end)
  = host w.
Proof.
  destruct (session j w) as [sj|]; [|reflexivity].
  destruct (observing sj); reflexivity.
Qed.

Lemma notify_all (l : list nat) (sid : nat) (w : World num) (s : Session num) :
  session sid w = Some s -> (~ In sid l \/ observing s = false) ->
  session sid
    (fold_left
       (fun w j =>
          match session j w with
          | Some sj => if observing sj then handleResize j w else w
          | None => w
          end)
       l w)
  = Some s
  /\ host (fold_left
             (fun w j =>
                match session j w with
                | Some sj => if observing sj then handleResize j w else w
                | None => w
                end)
             l w)
     = host w.
Proof.
  revert w. induction l as [|j l IH]; intros w Hs Hcase; [split; [exact Hs | reflexivity]|].
  cbn [fold_left].
  assert (Hstep : j <> sid \/ observing s = false).
  { destruct Hcase as [Hnot|Hoff]; [left|right; exact Hoff].
    intros ->. apply Hnot. left; reflexivity. }
  assert (Hrest : ~ In sid l \/ observing s = false).
  { destruct Hcase as [Hnot|Hoff]; [left|right; exact Hoff].
    intros Hin. apply Hnot. right; exact Hin. }
  destruct (IH _ (notify_step j sid w s Hs Hstep) Hrest) as (Hsess & Hhost).
  split; [exact Hsess|]. rewrite Hhost. apply notify_host.
Qed.

End Observers.

(** X11. A resize of the host reaches the sessions whose observer is connected
    and no other: a session whose observer was disconnected (by its
    cleanup) keeps its camera and its renderer as they were, and an observed
    session gets the new quotient as aspect ratio, a projection matrix
    computed from it, and the new size for its renderer. *)
Theorem resize_reaches_observers
    {num : Type} `{ThreeJS num} (cw ch rw rh : num) (w : World num) (sid : nat)
    (s : Session num) :
  session sid w = Some s ->
  (observing s = false -> session sid (resizeHost cw ch rw rh w) = Some s) /\
  (observing s = true ->
   session sid (resizeHost cw ch rw rh w)
   = Some (set_renderer {| width := cw; height := ch |}
             (set_camera
                (updateProjectionMatrix (set_aspect (cw / ch)%js (camera s)))
                s))).
Proof.
  intros Hs. unfold resizeHost.
  set (w0 := set_host _ w).
  assert (Hs0 : session sid w0 = Some s) by exact Hs.
  assert (Hlen : List.length (sessions w0) = List.length (sessions w)) by reflexivity.
  rewrite Hlen.
  split.
  - intros Hoff. apply notify_all; [exact Hs0 | right; exact Hoff].
  - intros Hon.
    assert (Hlt : (sid < List.length (sessions w))%nat)
      by (apply (session_bound sid w Hs)).
    assert (Hseq : seq 0 (List.length (sessions w))
                   = seq 0 sid ++ sid :: seq (S sid) (List.length (sessions w) - S sid)).
    { replace (List.length (sessions w))
        with (sid + S (List.length (sessions w) - S sid))%nat at 1 by lia.
      rewrite seq_app. reflexivity. }
    rewrite Hseq, fold_left_app. cbn [fold_left].
    set (step := fun (w : World num) (j : nat) =>
                   match session j w with
                   | Some sj => if observing sj then handleResize j w else w
                   | None => w
                   end).
    destruct (notify_all (seq 0 sid) sid w0 s Hs0) as (Hs1 & Hh1).
    { left. rewrite in_seq. lia. }
    fold step in Hs1, Hh1.
    set (w1 := fold_left step (seq 0 sid) w0) in *.
    assert (Hs2 : session sid (step w1 sid)
                  = Some (set_renderer {| width := cw; height := ch |}
                            (set_camera
                               (updateProjectionMatrix
                                  (set_aspect (cw / ch)%js (camera s)))
                               s))).
    { unfold step. rewrite Hs1, Hon.
      rewrite (handleResize_session sid w1 Hs1), Hh1. reflexivity. }
    apply notify_all; [exact Hs2|].
    left. rewrite in_seq. lia.
Qed.

Lemma resize_reaches_observers_witness :
  (exists s,
      session 0 (viewer (num:=float) []) = Some s /\ observing s = true /\
      option_map (fun s' => aspect (camera s'))
                 (session 0 (resizeHost 400%float 300%float 400%float 300%float
                                     (viewer (num:=float) [])))
      = Some (400 / 300)%float) /\
  (exists s,
      session 0 (cleanup 0 (viewer (num:=float) [])) = Some s /\
      observing s = false /\
      session 0 (resizeHost 400%float 300%float 400%float 300%float
                           (cleanup 0 (viewer (num:=float) [])))
      = Some s).
Proof.
  split.
  - assert (Hs : exists s, session 0 (viewer (num:=float) []) = Some s
                           /\ observing s = true)
      by (vm_compute; eexists; split; reflexivity).
    destruct Hs as (s & Hs & Hon).
    exists s. split; [exact Hs|]. split; [exact Hon|].
    rewrite (proj2 (@resize_reaches_observers float _ Still
                      400%float 300%float 400%float 300%float _ 0%nat s Hs) Hon).
    reflexivity.
  - assert (Hs : exists s, session 0 (cleanup 0 (viewer (num:=float) [])) = Some s
                           /\ observing s = false)
      by (vm_compute; eexists; split; reflexivity).
    destruct Hs as (s & Hs & Hoff).
    exists s. split; [exact Hs|]. split; [exact Hoff|].
    exact (proj1 (@resize_reaches_observers float _ Still
                    400%float 300%float 400%float 300%float _ 0%nat s Hs) Hoff).
Defined.

(** ** The scene graph: raycast candidates and disposal *)

Section Graph.
Context {num : Type} `{ThreeJS num}.

(** Induction on a scene graph, with the property known for the children. *)
Lemma Object3D_nested_ind (P : Object3D num -> Prop) :
  (forall k p sc cs, Forall P cs -> P (Obj k p sc cs)) -> forall o, P o.
Proof.
  intros Hstep. fix IH 1. intros [k p sc cs]. apply Hstep.
  induction cs as [|c cs IHcs]; constructor; [apply IH | exact IHcs].
Qed.

(** [traverse] visits a node exactly when it is within the tree. *)
Lemma traverse_within (root o : Object3D num) :
  In o (traverse root) <-> within o root.
Proof.
  split.
  - revert o. induction root as [k p sc cs IH] using Object3D_nested_ind.
    intros o Hin. cbn [traverse] in Hin. destruct Hin as [<-|Hin].
    + apply within_self.
    + apply in_flat_map in Hin. destruct Hin as (c & Hc & Hin).
      rewrite Forall_forall in IH.
      apply within_child with (c := c); [exact Hc | apply IH; assumption].
  - intros Hw. induction Hw as [|k p sc cs c Hc Hw IH].
    + destruct o as [k p sc cs]. left. reflexivity.
    + cbn [traverse]. right. apply in_flat_map. exists c. split; assumption.
Qed.

Lemma is_mesh_true (o : Object3D num) :
  is_mesh o = true <-> exists g m, kind_of o = Mesh g m.
Proof.
  unfold is_mesh. destruct (kind_of o); split; intros Hm;
    try discriminate; try (destruct Hm as (g & m & Hm); discriminate).
  - eexists. eexists. reflexivity.
  - reflexivity.
Qed.

Lemma dispose_geometry_iff (sid : nat) (g : Geometry num) (o : Object3D num) :
  In (GeometryDispose sid g) (dispose_object sid o)
  <-> exists m, kind_of o = Mesh g m.
Proof.
  unfold dispose_object. destruct (kind_of o) as [b| |g' m'|c i|c i|sz d c1 c2];
    try (split; [intros [] | intros (m & Hm); discriminate]).
  split.
  - intros [Heq|Hin].
    + injection Heq as ->. exists m'. reflexivity.
    + destruct m' as [m1|ms]; cbn in Hin.
      * destruct Hin as [Hm|[]]. discriminate.
      * apply in_map_iff in Hin. destruct Hin as (x0 & Hx & _). discriminate.
  - intros (m & Hm). injection Hm as -> ->. left. reflexivity.
Qed.

End Graph.

(** X12. The candidates [handleClick] gives to the raycaster are exactly the mesh
    nodes of the scene graph, at any depth: the scene itself, groups, lights
    and the grid are never candidates.  And there is no call of
    [onPinPlaced] outside edit mode, without a callback, or when the ray
    hits nothing. *)
Theorem raycast_candidates
    {num : Type} `{ThreeJS num} {R : Raycasting num} :
  (forall root o : Object3D num,
      In o (meshes root) <-> within o root /\ exists g m, kind_of o = Mesh g m) /\
  (forall (editMode onPinPlaced : bool) (left top : num) (event : MouseEvent)
          (sid : nat) (w : World num),
      editMode = false \/ onPinPlaced = false \/
      (forall k current s,
          sceneRef w = Some k -> session k w = Some current ->
          session sid w = Some s ->
          intersectObjects (pointer left top (host w) event) (camera s)
                           (meshes (scene current)) = []) ->
      handleClick editMode onPinPlaced left top event sid w = None).
Proof.
  split.
  - intros root o. unfold meshes. rewrite filter_In, traverse_within, is_mesh_true.
    reflexivity.
  - intros em cb l t e sid w Hcase. unfold handleClick.
    destruct Hcase as [->|[->|Hmiss]]; [reflexivity | destruct em; reflexivity|].
    destruct (negb em || negb cb); [reflexivity|].
    destruct (sceneRef w) as [k|]; [|reflexivity].
    destruct (session k w) as [current|] eqn:Hk; [|reflexivity].
    destruct (session sid w) as [s|] eqn:Hs; [|reflexivity].
    cbv zeta. rewrite (Hmiss k current s eq_refl Hk eq_refl). reflexivity.
Qed.

(** X13. The cleanup calls [dispose] on the geometry of every mesh of the scene
    of its session, at any depth of the graph, and on no other geometry: a
    geometry is in the log after the cleanup exactly when it was there
    before or belongs to a mesh within the scene. *)
Theorem cleanup_disposes_meshes
    {num : Type} `{ThreeJS num} (w : World num) (sid : nat) (s : Session num)
    (g : Geometry num) :
  session sid w = Some s ->
  (In (GeometryDispose sid g) (log (cleanup sid w))
   <-> In (GeometryDispose sid g) (log w)
       \/ exists o m, within o (scene s) /\ kind_of o = Mesh g m).
Proof.
  intros Hs. rewrite (cleanup_log w sid Hs).
  rewrite !in_app_iff. unfold teardown_calls.
  assert (Hgraph : In (GeometryDispose sid g)
                      (flat_map (dispose_object sid) (traverse (scene s)))
                   <-> exists o m, within o (scene s) /\ kind_of o = Mesh g m).
  { rewrite in_flat_map. split.
    - intros (o & Hin & Hd). apply traverse_within in Hin.
      apply dispose_geometry_iff in Hd. destruct Hd as (m & Hm).
      exists o, m. split; assumption.
    - intros (o & m & Hw & Hm). exists o. split.
      + apply traverse_within. exact Hw.
      + apply dispose_geometry_iff. exists m. exact Hm. }
  rewrite Hgraph. split.
  - intros [Hold|[Hcalls|[Hchild|Hnew]]].
    + left; exact Hold.
    + cbn in Hcalls. repeat (destruct Hcalls as [Hc|Hcalls]; [discriminate|]).
      destruct Hcalls.
    + destruct (existsb _ _); cbn in Hchild.
      * destruct Hchild as [Hc|[]]. discriminate.
      * destruct Hchild.
    + right; exact Hnew.
  - intros [Hold|Hnew]; [left; exact Hold | right; right; right; exact Hnew].
Qed.

Lemma cleanup_disposes_meshes_witness :
  In (GeometryDispose 0 (BufferGeometry "body"))
     (log (cleanup 0 (onLoad 0 asset (viewer_loading (num:=float) [])))).
Proof.
  assert (Hs : exists s,
             session 0 (onLoad 0 asset (viewer_loading (num:=float) [])) = Some s /\
             exists o m, List.nth_error (traverse (scene s)) 7 = Some o /\
                         kind_of o = Mesh (BufferGeometry "body") m)
    by (vm_compute; eexists; split; [reflexivity|]; eexists; eexists;
        split; reflexivity).
  destruct Hs as (s & Hs & o & m & Hnth & Hkind).
  apply (proj2 (@cleanup_disposes_meshes float _ Still _ 0%nat s
                  (BufferGeometry "body") Hs)).
  right. exists o, m. split; [|exact Hkind].
  apply traverse_within. apply nth_error_In with (n := 7%nat). exact Hnth.
Defined.

Lemma raycast_candidates_witness :
  handleClick (R:=HitAll) false true 0%float 0%float
              {| clientX := 400%float; clientY := 300%float |} 0
              (viewer (num:=float) []) = None /\
  handleClick (R:=Miss) true true 0%float 0%float
              {| clientX := 400%float; clientY := 300%float |} 0
              (viewer (num:=float) []) = None /\
  handleClick (R:=HitAll) true true 0%float 0%float
              {| clientX := 400%float; clientY := 300%float |} 0
              (viewer (num:=float) [])
  = Some (vec3 0 0 0, None)%float.
Proof.
  split; [|split].
  - apply (proj2 (@raycast_candidates float _ Still HitAll)). left. reflexivity.
  - apply (proj2 (@raycast_candidates float _ Still Miss)). right. right.
    intros k current s _ _ _. reflexivity.
  - vm_compute. reflexivity.
Defined.

(** ** Visibility and markers, in exact arithmetic *)

(** The projected depth of a point off the camera plane, for near plane
    0.01 and far plane 200. *)
Lemma depth_formula (T : ThreeJS Q) (camera : PerspectiveCamera Q)
    (p : ApiModel3DPin Q) :
  fixed_frustum camera ->
  ~ vz (applyMatrix4 (position_of p) (matrixWorldInverse camera)) == 0 ->
  vz (ndc camera p)
  == (20001 # 19999)
     + (400 # 19999)
       * / vz (applyMatrix4 (position_of p) (matrixWorldInverse camera)).
Proof.
  intros (Hn & Hf & Hm) Hz.
  unfold ndc, project. rewrite Hm.
  unfold updateProjectionMatrix.
  change (projectionMatrix (set_projectionMatrix ?m _)) with m.
  rewrite depth_makePerspective, Hn, Hf.
  set (v := applyMatrix4 (position_of p) (matrixWorldInverse camera)) in *.
  set (z := vz v) in *. set (a := vx v). set (b := vy v).
  unfold decimal; cbn [nadd nsub nmul ndiv nopp of_Z Exact].
  change (inject_Z (10 ^ Z.of_nat 2)) with (inject_Z 100).
  unfold inject_Z. field. exact Hz.
Qed.

Lemma Forall2_In_r {A B : Type} (R : A -> B -> Prop) (l : list A) (l' : list B)
    (b : B) :
  Forall2 R l l' -> In b l' -> exists a, In a l /\ R a b.
Proof.
  intros Hall. induction Hall as [|a0 b0 l l' Hab Hall IH]; intros Hin.
  - destruct Hin.
  - destruct Hin as [<-|Hin].
    + exists a0. split; [left; reflexivity | exact Hab].
    + destruct (IH Hin) as (a & Ha & HR). exists a. split; [right|]; assumption.
Qed.

(** X14. In exact arithmetic, with the frustum of the scene effect (near
    plane 0.01, far plane 200): a pin in front of the camera that projects
    inside the surface is marked visible when its distance along the view
    direction is at most 199 and invisible when it is at least 201.  The far
    plane alone decides (within a hair of it the rounding of doubles has a
    say, hence the margin); the near plane plays no part, and a pin nearer
    than 0.01 is still visible. *)
Theorem visible_within_far
    (T : ThreeJS Q) (w : World Q) (sid : nat) (s : Session Q) :
  cameraRef w = Some sid -> session sid w = Some s -> containerRef w = true ->
  Forall placed (pinsRef w) ->
  fixed_frustum (camera s) ->
  exists ps,
    projectPins w = Normal (set_projected ps w) /\
    Forall2
      (fun p q =>
         pin q = p /\
         (-1 <= vx (ndc (camera s) p) <= 1 ->
          -1 <= vy (ndc (camera s) p) <= 1 ->
          0 < view_distance (camera s) p ->
          (view_distance (camera s) p <= 199 -> visible q = true) /\
          (201 <= view_distance (camera s) p -> visible q = false)))
      (pinsRef w) ps.
Proof.
  intros Hc Hs Hm Hp Hfr.
  destruct (projectPins_placed w Hc Hs Hm Hp) as (ps & Hrun & Hall).
  exists ps; split; [exact Hrun|].
  eapply Forall2_weaken; [|exact Hall].
  intros p q _ Hq.
  destruct (projectPin_reading T _ _ _ Hq) as (Hpin & _ & _ & Hvis).
  split; [exact Hpin|].
  unfold view_distance. cbn [nopp Exact].
  set (z := vz (applyMatrix4 (position_of p) (matrixWorldInverse (camera s)))) in *.
  intros _ _ Hd.
  assert (Hz : z < 0) by lra.
  assert (Hne : ~ z == 0) by lra.
  pose proof (depth_formula T (camera s) p Hfr Hne) as Hdepth. fold z in Hdepth.
  assert (Hi : z * / z == 1) by (apply Qmult_inv_r; exact Hne).
  set (i := / z) in *.
  assert (Hineg : i < 0) by nra.
  split.
  - intros Hnear.
    destruct (visible q) eqn:Hv; [reflexivity|].
    pose proof (proj1 Hvis eq_refl) as Hge. rewrite Hdepth in Hge. nra.
  - intros Hfar. apply Hvis. rewrite Hdepth. nra.
Qed.

Lemma visible_within_far_witness :
  exists ps,
    fixed_frustum (camera (first_session (viewer (num:=Q) [pin_front; pin_behind]))) /\
    projectPins (viewer [pin_front; pin_behind])
    = Normal (set_projected ps (viewer [pin_front; pin_behind])) /\
    Forall2
      (fun p q =>
         pin q = p /\
         (-1 <= vx (ndc (camera (first_session (viewer [pin_front; pin_behind]))) p) <= 1 ->
          -1 <= vy (ndc (camera (first_session (viewer [pin_front; pin_behind]))) p) <= 1 ->
          0 < view_distance (camera (first_session (viewer [pin_front; pin_behind]))) p ->
          (view_distance (camera (first_session (viewer [pin_front; pin_behind]))) p
           <= 199 -> visible q = true) /\
          (201 <= view_distance (camera (first_session (viewer [pin_front; pin_behind]))) p
           -> visible q = false)))
      [pin_front; pin_behind] ps /\
    -1 <= vx (ndc (camera (first_session (viewer [pin_front; pin_behind]))) pin_front) <= 1 /\
    -1 <= vy (ndc (camera (first_session (viewer [pin_front; pin_behind]))) pin_front) <= 1 /\
    0 < view_distance (camera (first_session (viewer [pin_front; pin_behind]))) pin_front
    <= 199.
Proof.
  assert (Hs : session 0 (viewer (num:=Q) [pin_front; pin_behind])
               = Some (first_session (viewer [pin_front; pin_behind])))
    by (vm_compute; reflexivity).
  assert (Hfr : fixed_frustum
                  (camera (first_session (viewer (num:=Q) [pin_front; pin_behind]))))
    by (split; [vm_compute; reflexivity
               | split; [vm_compute; reflexivity | vm_compute; reflexivity]]).
  assert (Hc : cameraRef (viewer (num:=Q) [pin_front; pin_behind]) = Some 0%nat)
    by (vm_compute; reflexivity).
  assert (Hm : containerRef (viewer (num:=Q) [pin_front; pin_behind]) = true)
    by (vm_compute; reflexivity).
  assert (Hpins : pinsRef (viewer (num:=Q) [pin_front; pin_behind])
                  = [pin_front; pin_behind]) by (vm_compute; reflexivity).
  assert (Hp : Forall placed (pinsRef (viewer (num:=Q) [pin_front; pin_behind]))).
  { rewrite Hpins. repeat constructor; discriminate. }
  destruct (visible_within_far Still _ 0%nat _ Hc Hs Hm Hp Hfr)
    as (ps & Hrun & Hall).
  rewrite Hpins in Hall.
  exists ps. split; [exact Hfr|]. split; [exact Hrun|]. split; [exact Hall|].
  split; [split; vm_compute; discriminate|].
  split; [split; vm_compute; discriminate|].
  split; [vm_compute; reflexivity | vm_compute; discriminate].
Defined.

(** X15. The overlay after a projection pass with the camera of the scene
    effect: it shows nothing while pins are hidden; otherwise every marker
    belongs to a pin of the list that is not behind the camera, carries its
    id as key and sits at its projected coordinates, and there are no more
    markers than pins. *)
Theorem markers_of_pass
    (T : ThreeJS Q) (w : World Q) (sid : nat) (s : Session Q) :
  cameraRef w = Some sid -> session sid w = Some s -> containerRef w = true ->
  Forall placed (pinsRef w) ->
  fixed_frustum (camera s) ->
  exists ps,
    projectPins w = Normal (set_projected ps w) /\
    markers false ps = [] /\
    (List.length (markers true ps) <= List.length (pinsRef w))%nat /\
    forall m,
      In m (markers true ps) ->
      exists p,
        In p (pinsRef w) /\ key m = id p /\ ~ behind (camera s) p /\
        style_left m == (vx (ndc (camera s) p) * 0.5 + 0.5) * rect_width (host w) /\
        style_top m == (- vy (ndc (camera s) p) * 0.5 + 0.5) * rect_height (host w).
Proof.
  intros Hc Hs Hm Hp Hfr.
  destruct (projectPins_placed w Hc Hs Hm Hp) as (ps & Hrun & Hall).
  exists ps. split; [exact Hrun|]. split; [reflexivity|]. split.
  - unfold markers. rewrite length_map.
    rewrite (Forall2_length Hall). apply filter_length_le.
  - intros m Hin. unfold markers in Hin. apply in_map_iff in Hin.
    destruct Hin as (q & <- & Hq). apply filter_In in Hq.
    destruct Hq as (Hq & Hvisible).
    destruct (Forall2_In_r _ _ _ q Hall Hq) as (p & Hp' & Hpq).
    destruct (projectPin_reading T _ _ _ Hpq) as (Hpin & Hx & Hy & Hvis).
    exists p. cbn [key style_left style_top]. rewrite Hpin.
    split; [exact Hp'|]. split; [reflexivity|]. split; [|split; assumption].
    intros Hb.
    assert (Hfalse : visible q = false)
      by (apply Hvis; apply (@depth_behind T); assumption).
    congruence.
Qed.

Lemma markers_of_pass_witness :
  exists ps,
    projectPins (viewer (num:=Q) [pin_front; pin_behind])
    = Normal (set_projected ps (viewer [pin_front; pin_behind])) /\
    (List.length (markers true ps) <= 2)%nat /\
    forall m,
      In m (markers true ps) ->
      exists p,
        In p [pin_front; pin_behind] /\ key m = id p /\
        ~ behind (camera (first_session (viewer (num:=Q) [pin_front; pin_behind]))) p.
Proof.
  assert (Hs : session 0 (viewer (num:=Q) [pin_front; pin_behind])
               = Some (first_session (viewer [pin_front; pin_behind])))
    by (vm_compute; reflexivity).
  assert (Hfr : fixed_frustum
                  (camera (first_session (viewer (num:=Q) [pin_front; pin_behind]))))
    by (split; [vm_compute; reflexivity
               | split; [vm_compute; reflexivity | vm_compute; reflexivity]]).
  assert (Hc : cameraRef (viewer (num:=Q) [pin_front; pin_behind]) = Some 0%nat)
    by (vm_compute; reflexivity).
  assert (Hm : containerRef (viewer (num:=Q) [pin_front; pin_behind]) = true)
    by (vm_compute; reflexivity).
  assert (Hpins : pinsRef (viewer (num:=Q) [pin_front; pin_behind])
                  = [pin_front; pin_behind]) by (vm_compute; reflexivity).
  assert (Hp : Forall placed (pinsRef (viewer (num:=Q) [pin_front; pin_behind]))).
  { rewrite Hpins. repeat constructor; discriminate. }
  destruct (markers_of_pass Still _ 0%nat _ Hc Hs Hm Hp Hfr)
    as (ps & Hrun & _ & Hlen & Hall).
  rewrite Hpins in Hlen, Hall.
  exists ps. split; [exact Hrun|]. split; [exact Hlen|].
  intros m Hin. destruct (Hall m Hin) as (p & Hp' & Hkey & Hnb & _).
  exists p. split; [exact Hp'|]. split; [exact Hkey | exact Hnb].
Defined.

(** X19. In exact arithmetic: a pin whose normalized device coordinates
    lie in [-1,1] is stored with pixel coordinates inside the bounding
    rectangle of the host, from 0 to its width and from 0 to its height,
    whatever the (non-negative) size of the rectangle. *)
Theorem projected_within_surface
    (T : ThreeJS Q) (camera : PerspectiveCamera Q) (rect : Container Q)
    (p : ApiModel3DPin Q) (q : Projected2DPin Q) :
  projectPin camera rect p = Ok q ->
  (0 <= rect_width rect -> -1 <= vx (ndc camera p) <= 1 ->
   0 <= x q <= rect_width rect) /\
  (0 <= rect_height rect -> -1 <= vy (ndc camera p) <= 1 ->
   0 <= y q <= rect_height rect).
Proof.
  intros Hq.
  destruct (projectPin_reading T _ _ _ Hq) as (_ & Hx & Hy & _).
  split.
  - intros Hw Hn. rewrite Hx.
    set (a := vx (ndc camera p)) in *. set (W := rect_width rect) in *.
    split; nra.
  - intros Hh Hn. rewrite Hy.
    set (a := vy (ndc camera p)) in *. set (W := rect_height rect) in *.
    split; nra.
Qed.

Lemma projected_within_surface_witness :
  exists q,
    projectPin (camera (first_session (viewer (num:=Q) []))) (surface 400 300)
               (pin_at (num:=Q) "p" (Some (vec3 (1 # 2) (1 # 4) (-5)))) = Ok q /\
    0 <= x q <= 400 /\ 0 <= y q <= 300.
Proof.
  assert (Hq : exists q,
             projectPin (camera (first_session (viewer (num:=Q) [])))
                        (surface 400 300)
                        (pin_at (num:=Q) "p" (Some (vec3 (1 # 2) (1 # 4) (-5))))
             = Ok q) by (vm_compute; eexists; reflexivity).
  destruct Hq as (q & Hq). exists q. split; [exact Hq|].
  destruct (projected_within_surface Still _ _ _ q Hq) as (Hx & Hy).
  split.
  - apply Hx; [discriminate|]. split; vm_compute; discriminate.
  - apply Hy; [discriminate|]. split; vm_compute; discriminate.
Defined.

(** ** Load progress *)

(** X17. The progress callback never divides by a total that is not
    positive: for every arithmetic it leaves the state alone when the
    comparison [total > 0] fails (on doubles also for a NaN total).  In
    exact arithmetic, for a positive total and a loaded amount between zero
    and the total, it stores a whole percentage between 0 and 100, and 100
    when everything is loaded. *)
Theorem onProgress_percent :
  (forall (num : Type) (N : Number num) (R : Rounding num)
          (loaded total : num) (w : World num),
      ($0 <? total)%js = false -> onProgress loaded total w = w) /\
  (forall (loaded total : Q) (w : World Q),
      0 < total -> 0 <= loaded <= total ->
      exists n : Z,
        onProgress loaded total w = set_loadProgress (inject_Z n) w /\
        (0 <= n <= 100)%Z) /\
  (forall (loaded total : Q) (w : World Q),
      0 < total -> loaded == total ->
      onProgress loaded total w = set_loadProgress (inject_Z 100) w).
Proof.
  split; [|split].
  - intros num N R loaded total w Hle. unfold onProgress. rewrite Hle.
    reflexivity.
  - intros loaded total w Hpos (Hlo & Hhi). unfold onProgress.
    apply Qltb_true in Hpos as Hb.
    change (($0 <? total)%js) with (Qltb 0 total). rewrite Hb.
    eexists. split; [reflexivity|].
    assert (Hinv : 0 < / total) by (apply Qinv_lt_0_compat; exact Hpos).
    assert (Hone : total * / total == 1) by (apply Qmult_inv_r; lra).
    assert (Hq : 0 <= loaded / total * 100 <= 100).
    { unfold Qdiv. set (i := / total) in *. split; nra. }
    cbn [nmul ndiv of_Z Exact]. change (inject_Z 100) with 100.
    split.
    + refine (Qfloor_resp_le 0 _ _). lra.
    + refine (Qfloor_resp_le _ (201 # 2) _). lra.
  - intros loaded total w Hpos Heq. unfold onProgress.
    apply Qltb_true in Hpos as Hb.
    change (($0 <? total)%js) with (Qltb 0 total). rewrite Hb.
    cbn [Math_round Exact_round nmul ndiv of_Z Exact].
    change (inject_Z 100) with 100 at 1.
    assert (Hq : loaded / total * 100 + (1 # 2) == 201 # 2).
    { rewrite Heq. field. lra. }
    rewrite Hq. reflexivity.
Qed.

Lemma onProgress_percent_witness :
  onProgress 1000%float 0%float (mount (surface 800 600)) = mount (surface 800 600) /\
  onProgress 1000%float PrimFloat.nan (mount (surface 800 600))
  = mount (surface 800 600) /\
  onProgress (num:=Q) 1 3 (mount (surface 800 600))
  = set_loadProgress (inject_Z 33) (mount (surface 800 600)) /\
  onProgress (num:=Q) 3 3 (mount (surface 800 600))
  = set_loadProgress (inject_Z 100) (mount (surface 800 600)).
Proof.
  split; [|split; [|split]].
  - apply (proj1 onProgress_percent float _ _). reflexivity.
  - apply (proj1 onProgress_percent float _ _). reflexivity.
  - destruct (proj1 (proj2 onProgress_percent) 1 3 (mount (surface 800 600)))
      as (n & Hrun & _); [reflexivity | split; discriminate|].
    vm_compute. reflexivity.
  - apply (proj2 (proj2 onProgress_percent)); reflexivity.
Defined.

(** The same callback on doubles, evaluated: the quotient and the product
    are rounded before [Math.round] sees them, so 29 parts of 200 come out
    as 14 percent (14.5 in exact arithmetic, which rounds to 15). *)
Lemma onProgress_doubles :
  loadProgress (onProgress 29%float 200%float (mount (surface 800 600))) = 14%float /\
  loadProgress (onProgress 57%float 200%float (mount (surface 800 600))) = 28%float /\
  loadProgress (onProgress 23%float 40%float (mount (surface 800 600))) = 57%float /\
  loadProgress (onProgress 1%float 3%float (mount (surface 800 600))) = 33%float /\
  loadProgress (onProgress 200%float 200%float (mount (surface 800 600))) = 100%float /\
  loadProgress (onProgress (num:=Q) 29 200 (mount (surface 800 600))) = inject_Z 15.
Proof. repeat (split; [vm_compute; reflexivity|]); vm_compute; reflexivity. Qed.

(** ** The centre of the surface *)

(** The screen coordinates [Vector3.project] gives through a perspective
    matrix. *)
Lemma plane_makePerspective {num : Type} `{Number num}
    (l r t b n f : num) (v : Vector3 num) :
  vx (applyMatrix4 v (makePerspective l r t b n f))
  = (($2 * n / (r - l) * vx v + $0 * vy v + (r + l) / (r - l) * vz v + $0)
     * ($1 / ($0 * vx v + $0 * vy v + (- $1) * vz v + $0)))%js /\
  vy (applyMatrix4 v (makePerspective l r t b n f))
  = (($0 * vx v + $2 * n / (t - b) * vy v + (t + b) / (t - b) * vz v + $0)
     * ($1 / ($0 * vx v + $0 * vy v + (- $1) * vz v + $0)))%js.
Proof. split; reflexivity. Qed.

(** X18. In exact arithmetic: the frustum of [updateProjectionMatrix] is
    symmetric, so a pin on the axis of the camera (camera-space x and y
    zero) between the near and the far plane is drawn at the centre of the
    host surface.  This is for the camera of the viewer (near plane 0.01,
    far plane 200, zoom 1, projection matrix up to date), an aspect ratio
    between 10^-6 and 10^6 and a field of view whose half-angle has a
    tangent between 0.001 and 1000: outside these the quotients of the code
    can be NaN. *)
Theorem axis_pin_at_centre
    (T : ThreeJS Q) (camera : PerspectiveCamera Q) (rect : Container Q)
    (p : ApiModel3DPin Q) (q : Projected2DPin Q) :
  fixed_frustum camera -> zoom camera == 1 ->
  1 # 1000 <= Math_tan (DEG2RAD * decimal 5 1 * fov camera)%js <= 1000 ->
  1 # 1000000 <= aspect camera <= 1000000 ->
  vx (applyMatrix4 (position_of p) (matrixWorldInverse camera)) == 0 ->
  vy (applyMatrix4 (position_of p) (matrixWorldInverse camera)) == 0 ->
  1 # 100 <= view_distance camera p <= 200 ->
  projectPin camera rect p = Ok q ->
  x q == rect_width rect / 2 /\ y q == rect_height rect / 2.
Proof.
  intros (_ & _ & Hm) _ _ _ Hx0 Hy0 _ Hq.
  destruct (projectPin_reading T _ _ _ Hq) as (_ & Hx & Hy & _).
  assert (Hndc : vx (ndc camera p) == 0 /\ vy (ndc camera p) == 0).
  { unfold ndc, project. rewrite Hm. unfold updateProjectionMatrix.
    change (projectionMatrix (set_projectionMatrix ?m _)) with m.
    set (v := applyMatrix4 (position_of p) (matrixWorldInverse camera)) in *.
    set (top := (near camera * Math_tan (DEG2RAD * decimal 5 1 * fov camera)
                 / zoom camera)%js).
    set (height := ($2 * top)%js).
    set (width := (aspect camera * height)%js).
    set (left := ((- decimal 5 1) * width)%js).
    destruct (plane_makePerspective left (left + width)%js top (top - height)%js
                (near camera) (far camera) v) as (Ex & Ey).
    rewrite Ex, Ey.
    assert (Hrl : (left + width + left)%js == 0).
    { unfold left, decimal. cbn [nadd nmul ndiv nopp of_Z Exact].
      change (inject_Z (10 ^ Z.of_nat 1)) with (inject_Z 10).
      unfold inject_Z. field. }
    assert (Htb : (top + (top - height))%js == 0).
    { unfold height. cbn [nadd nsub nmul of_Z Exact]. unfold inject_Z. ring. }
    clearbody left width height top.
    cbn [nadd nsub nmul ndiv nopp of_Z Exact] in *.
    unfold Qdiv. rewrite Hrl, Htb, Hx0, Hy0. unfold inject_Z.
    split; ring. }
  destruct Hndc as (Hnx & Hny).
  rewrite Hx, Hy, Hnx, Hny. split; field.
Qed.

Lemma axis_pin_at_centre_witness :
  exists q,
    projectPin (camera (first_session (viewer (num:=Q) []))) (surface 800 600)
               pin_front = Ok q /\
    x q == 400 /\ y q == 300.
Proof.
  assert (Hq : exists q,
             projectPin (camera (first_session (viewer (num:=Q) [])))
                        (surface 800 600) pin_front = Ok q)
    by (vm_compute; eexists; reflexivity).
  destruct Hq as (q & Hq). exists q. split; [exact Hq|].
  destruct (axis_pin_at_centre Still
              (camera (first_session (viewer (num:=Q) []))) (surface 800 600)
              pin_front q) as (Hx & Hy).
  - split; [vm_compute; reflexivity
           | split; [vm_compute; reflexivity | vm_compute; reflexivity]].
  - vm_compute. reflexivity.
  - split; vm_compute; discriminate.
  - split; vm_compute; discriminate.
  - vm_compute. reflexivity.
  - vm_compute. reflexivity.
  - split; vm_compute; discriminate.
  - exact Hq.
  - split; [rewrite Hx | rewrite Hy]; vm_compute; reflexivity.
Defined.
